(** * Cuttle: certificate lifecycle FSM, orchestrator and mock authority

    A shallow embedding of [models.py], [certbot_mock.py] and [app.py].

    - Timestamps ([datetime]) are integers: microseconds since the epoch,
      the resolution of Python's [datetime]; [timedelta(days=n)] is the
      corresponding number of microseconds.
    - The wall clock, the random source and the sleeping are effects of the
      program.  They are threaded through a state monad over [World]: every
      [datetime.now] consumes one reading of the clock, every
      [random.random] one draw, every [time.sleep] is logged.
    - [datetime] is bounded: a sum beyond [datetime.max] raises
      [OverflowError].  The sum on a stored expiry (in the authority's
      renew) is checked against that bound.  The readings of the wall clock
      are times of the present, far from the bound: the two sums of a
      reading and 90 or 30 days are not checked.
    - Floats only occur as the success probability, the delay and the
      random draws; they are compared, never computed with, so they are
      embedded as the rationals they denote.
    - The database session is a finite map from the (unique) domain name to
      the row; the authority's [certs] dictionary is a finite map as well. *)

From Stdlib Require Import ZArith QArith Lia Ascii String.
From stdpp Require Import gmap strings list.

Local Open Scope string_scope.
Local Open Scope Z_scope.

(** ** Time *)

Definition datetime : Type := Z.

Definition timedelta (days : Z) : Z := days * 86400 * 1000000.

(** [datetime.max], 9999-12-31 23:59:59.999999. *)
Definition datetime_max : datetime := 253402300799999999.

(** The built-in exceptions the modelled code can raise by itself. *)
Inductive PyError :=
| OverflowError
| TypeError.

(** [t + delta] for a non-negative [delta]: "date value out of range"
    beyond [datetime.max]. *)
Definition add_timedelta (t : datetime) (delta : Z) : PyError + datetime :=
  if t + delta <=? datetime_max then inr (t + delta) else inl OverflowError.

(** ** Data model *)

(** A value of the dictionary [CertbotMock.certs]: the keys [status],
    [expires_at] and [issued_at] are written when the entry is created,
    [renewed_at] and [revoked_at] are added later. *)
Record Cert := mkCert {
  status : string;
  cert_expires_at : datetime;
  issued_at : datetime;
  renewed_at : option datetime;
  revoked_at : option datetime
}.

Record CertbotMock := mkCertbotMock {
  success_rate : Q;
  delay : Q;
  certs : gmap string Cert
}.

(** A row of table [certdomain] (the surrogate key [id] is left out). *)
Record CertDomain := mkCertDomain {
  domain : string;
  enabled : bool;
  state : string;
  expires_at : option datetime;
  created_at : datetime;
  updated_at : datetime;
  last_checked : option datetime;
  last_error : option string
}.

(** Deferred work handed to [BackgroundTasks.add_task]. *)
Inductive Task :=
| perform_issuance_task (d : string)
| perform_renewal_task (d : string)
| perform_revocation_task (d : string).

Record World := mkWorld {
  wallclock : nat -> datetime;   (* the n-th reading of datetime.now *)
  ticks : nat;                   (* readings consumed so far *)
  entropy : nat -> Q;            (* the n-th value of random.random *)
  draws : nat;                   (* draws consumed so far *)
  slept : list Q;                (* arguments of time.sleep, latest first *)
  certbot : CertbotMock;         (* the module-level authority instance *)
  db : gmap string CertDomain;   (* committed rows *)
  background_tasks : list Task   (* scheduled, not yet run *)
}.

(** *** Field updates *)

Definition set_status (v : string) (c : Cert) : Cert :=
  mkCert v (cert_expires_at c) (issued_at c) (renewed_at c) (revoked_at c).
Definition set_cert_expires_at (v : datetime) (c : Cert) : Cert :=
  mkCert (status c) v (issued_at c) (renewed_at c) (revoked_at c).
Definition set_renewed_at (v : datetime) (c : Cert) : Cert :=
  mkCert (status c) (cert_expires_at c) (issued_at c) (Some v) (revoked_at c).
Definition set_revoked_at (v : datetime) (c : Cert) : Cert :=
  mkCert (status c) (cert_expires_at c) (issued_at c) (renewed_at c) (Some v).

Definition set_certs (v : gmap string Cert) (a : CertbotMock) : CertbotMock :=
  mkCertbotMock (success_rate a) (delay a) v.

Definition set_state (v : string) (e : CertDomain) : CertDomain :=
  mkCertDomain (domain e) (enabled e) v (expires_at e) (created_at e)
    (updated_at e) (last_checked e) (last_error e).
Definition set_expires_at (v : option datetime) (e : CertDomain) : CertDomain :=
  mkCertDomain (domain e) (enabled e) (state e) v (created_at e)
    (updated_at e) (last_checked e) (last_error e).
Definition set_updated_at (v : datetime) (e : CertDomain) : CertDomain :=
  mkCertDomain (domain e) (enabled e) (state e) (expires_at e) (created_at e)
    v (last_checked e) (last_error e).
Definition set_last_checked (v : option datetime) (e : CertDomain) : CertDomain :=
  mkCertDomain (domain e) (enabled e) (state e) (expires_at e) (created_at e)
    (updated_at e) v (last_error e).
Definition set_last_error (v : option string) (e : CertDomain) : CertDomain :=
  mkCertDomain (domain e) (enabled e) (state e) (expires_at e) (created_at e)
    (updated_at e) (last_checked e) v.

(** ** The effect monad *)

Definition M (A : Type) : Type := World -> A * World.

#[global] Instance M_ret : MRet M := fun A (a : A) w => (a, w).

#[global] Instance M_bind : MBind M := fun A B (k : A -> M B) (m : M A) w =>
  let (a, w') := m w in k a w'.

Definition ret {A} (a : A) : M A := mret a.

(** [datetime.now(timezone.utc)] *)
Definition now : M datetime := fun w =>
  (wallclock w (ticks w),
   mkWorld (wallclock w) (S (ticks w)) (entropy w) (draws w) (slept w)
     (certbot w) (db w) (background_tasks w)).

(** [random.random()] *)
Definition random : M Q := fun w =>
  (entropy w (draws w),
   mkWorld (wallclock w) (ticks w) (entropy w) (S (draws w)) (slept w)
     (certbot w) (db w) (background_tasks w)).

(** [time.sleep(secs)] *)
Definition sleep (secs : Q) : M unit := fun w =>
  (tt,
   mkWorld (wallclock w) (ticks w) (entropy w) (draws w) (secs :: slept w)
     (certbot w) (db w) (background_tasks w)).

Definition get_certbot : M CertbotMock := fun w => (certbot w, w).

Definition put_certs (cs : gmap string Cert) : M unit := fun w =>
  (tt,
   mkWorld (wallclock w) (ticks w) (entropy w) (draws w) (slept w)
     (set_certs cs (certbot w)) (db w) (background_tasks w)).

(** [session.execute(select(CertDomain).where(CertDomain.domain == d))
    .scalar_one_or_none()] *)
Definition select_domain (d : string) : M (option CertDomain) :=
  fun w => (db w !! d, w).

(** [session.add(entry); session.commit()] with [updated_at] among the
    attributes that were set on [entry]. *)
Definition commit (e : CertDomain) : M unit := fun w =>
  (tt,
   mkWorld (wallclock w) (ticks w) (entropy w) (draws w) (slept w)
     (certbot w) (<[domain e := e]> (db w)) (background_tasks w)).

(** [background_tasks.add_task(...)] *)
Definition add_task (t : Task) : M unit := fun w =>
  (tt,
   mkWorld (wallclock w) (ticks w) (entropy w) (draws w) (slept w)
     (certbot w) (db w) (background_tasks w ++ [t])).

(** ** certbot_mock.py *)

Module CertbotMockM.

(** [x < y] on floats, read as rationals. *)
Definition float_lt (x y : Q) : bool :=
  if Qlt_le_dec x y then true else false.

#[global] Arguments float_lt : simpl never.

Definition issue_certificate (d : string)
  : M (bool * option string * option datetime) :=
  self ← get_certbot;
  sleep (delay self) ;;
  r ← random;
  if float_lt r (success_rate self) then
    t ← now;
    let expiry := t + timedelta 90 in
    t' ← now;
    put_certs (<[d := mkCert "issued" expiry t' None None]> (certs self)) ;;
    ret (true, None, Some expiry)
  else
    let error_msg := "Mock: Failed to complete challenge for " ++ d in
    ret (false, Some error_msg, None).

(** The new expiry is computed from the stored one before anything is
    written: when it is out of range the call raises, after the sleep and
    the draw, and the certificate is as before. *)
Definition renew_certificate (d : string)
  : M (PyError + bool * option string * option datetime) :=
  self ← get_certbot;
  match certs self !! d with
  | None =>
    ret (inr (false, Some ("Mock: No certificate found for " ++ d), None))
  | Some cert =>
    sleep (delay self) ;;
    r ← random;
    if float_lt r (success_rate self) then
      let current_expiry := cert_expires_at cert in
      match add_timedelta current_expiry (timedelta 90) with
      | inl err => ret (inl err)
      | inr new_expiry =>
        t ← now;
        put_certs
          (<[d := set_renewed_at t (set_cert_expires_at new_expiry cert)]>
             (certs self)) ;;
        ret (inr (true, None, Some new_expiry))
      end
    else
      let error_msg := "Mock: Failed to renew certificate for " ++ d in
      ret (inr (false, Some error_msg, None))
  end.

Definition revoke_certificate (d : string) : M (bool * option string) :=
  self ← get_certbot;
  match certs self !! d with
  | None => ret (false, Some ("Mock: No certificate found for " ++ d))
  | Some cert =>
    sleep (delay self) ;;
    r ← random;
    if float_lt r (success_rate self) then
      t ← now;
      put_certs (<[d := set_revoked_at t (set_status "revoked" cert)]>
                   (certs self)) ;;
      ret (true, None)
    else
      let error_msg := "Mock: Failed to revoke certificate for " ++ d in
      ret (false, Some error_msg)
  end.

(** The clock is read at each of the two comparisons; the second one is
    only reached when the first fails. *)
Definition check_certificate (d : string)
  : M (bool * string * option datetime) :=
  self ← get_certbot;
  match certs self !! d with
  | None => ret (false, "not_found", None)
  | Some cert =>
    if String.eqb (status cert) "revoked" then ret (false, "revoked", None)
    else
      let expires_at := cert_expires_at cert in
      t1 ← now;
      if expires_at <? t1 then ret (false, "expired", Some expires_at)
      else
        t2 ← now;
        if expires_at <? t2 + timedelta 30
        then ret (true, "expiring_soon", Some expires_at)
        else ret (true, "valid", Some expires_at)
  end.

End CertbotMockM.

(** ** models.py *)

Module Models.

(** Whether a [datetime] carries a time zone.  What is assigned from
    [datetime.now(timezone.utc)] is aware; what is read back from the
    store is naive, since SQLite (the engine of [app.py]) keeps no time
    zone, whatever [DateTime(timezone=True)] asks for.  The row of the
    embedding holds the instant; the kind of its [expires_at] is an
    argument of the methods that compare it. *)
Inductive tzinfo := naive | aware.

(** [self.expires_at < datetime.now(timezone.utc)]: the clock is read,
    then the comparison of a naive with an aware value raises
    [TypeError]. *)
Definition before_now (tz : tzinfo) (e : datetime) : M (PyError + bool) :=
  t ← now;
  match tz with
  | aware => ret (inr (e <? t))
  | naive => ret (inl TypeError)
  end.

Definition is_expired (tz : tzinfo) (self : CertDomain)
  : M (PyError + bool) :=
  match expires_at self with
  | Some e => before_now tz e
  | None => ret (inr false)
  end.

Definition is_revoked (self : CertDomain) : bool :=
  String.eqb (state self) "revoked".

(** [a and not b and not c]: [b] is only evaluated when [a] is true, [c]
    only when [b] is false. *)
Definition is_valid (tz : tzinfo) (self : CertDomain) : M (PyError + bool) :=
  if String.eqb (state self) "issued" then
    expired ← is_expired tz self;
    match expired with
    | inl err => ret (inl err)
    | inr expired =>
      if negb expired then ret (inr (negb (is_revoked self)))
      else ret (inr false)
    end
  else ret (inr false).

End Models.

(** ** The [transitions] package, as [app.py] uses it

    [Machine(model, states, transitions, initial)] is called with the
    package's defaults.  With [auto_transitions=True] every state [s] of
    the machine gets a trigger [to_s], legal from every state, next to
    the triggers of the table; an [initial] state that is not among
    [states] is added to them.  A source ["*"] stands for every state of
    the machine.  Calling a trigger runs the first of its transitions
    whose source is the model's state; with none, [MachineError] is
    raised.

    The machine also gives the model a method [is_s] for every state and
    [may_t] for every trigger; they answer a boolean.  They and the
    methods every Python object has that take no argument return
    normally and leave the state alone.  Any other name ends in an
    exception: [AttributeError] when the model has no such attribute;
    for the remaining attributes ([state], [trigger], [__init__], ...) the
    call without arguments raises [TypeError], which is not told apart
    from [AttributeError] here. *)

Module Transitions.

Record Transition := mkTransition {
  trigger : string;
  source : string;
  dest : string
}.

Definition wildcard_all : string := "*".

Inductive Exception :=
| AttributeError (msg : string)
| MachineError (msg : string).

Definition dq : string := String (Ascii.ascii_of_nat 34) EmptyString.

(** [str(e)]: [MachineError] prints the [repr] of its message. *)
Definition str (e : Exception) : string :=
  match e with
  | AttributeError msg => msg
  | MachineError msg => dq ++ msg ++ dq
  end.

Definition machine_states (states : list string) (initial : string)
  : list string :=
  if decide (initial ∈ states) then states else states ++ [initial].

Definition auto_transitions (states : list string) : list Transition :=
  map (fun s => mkTransition ("to_" ++ s) wildcard_all s) states.

(** A machine: its states and all its transitions, in the order they are
    added. *)
Record FSM := mkFSM {
  fsm_states : list string;
  fsm_events : list Transition
}.

Definition Machine (states : list string) (transitions : list Transition)
  (initial : string) : FSM :=
  let all_states := machine_states states initial in
  mkFSM all_states (auto_transitions all_states ++ transitions).

Definition has_trigger (event : string) (t : Transition) : bool :=
  String.eqb (trigger t) event.

Definition from_state (current : string) (t : Transition) : bool :=
  String.eqb (source t) wildcard_all || String.eqb (source t) current.

(** Methods of every object that can be called without an argument
    (CPython's [object]; [__getstate__], which Python 3.11 adds, is not
    listed). *)
Definition object_methods : list string :=
  ["__str__"; "__repr__"; "__hash__"; "__dir__"; "__sizeof__"; "__reduce__";
   "__init_subclass__"; "__subclasshook__"].

(** The names, other than triggers, whose call returns normally: [is_s]
    for the states, [may_t] for the triggers, and the object's own. *)
Definition quiet_names (machine : FSM) : list string :=
  (map (fun s => "is_" ++ s)%string (fsm_states machine)
   ++ map (fun t => "may_" ++ trigger t)%string (fsm_events machine)
   ++ object_methods)%list.

(** [getattr(model, event)()] on a model in state [current], followed by
    [model.state]. *)
Definition call (machine : FSM) (current event : string)
  : Exception + string :=
  if existsb (has_trigger event) (fsm_events machine) then
    match find (fun t => has_trigger event t && from_state current t)
            (fsm_events machine) with
    | Some t => inr (dest t)
    | None =>
      inl (MachineError ("Can't trigger event " ++ event ++ " from state "
                           ++ current ++ "!"))
    end
  else if existsb (String.eqb event) (quiet_names machine) then inr current
  else
    inl (AttributeError ("'FSMWrapper' object has no attribute '"
                           ++ event ++ "'")).

End Transitions.

(** ** app.py *)

(** Response bodies. *)
#[local] Unset Elimination Schemes.
Inductive json :=
| JNull
| JBool (b : bool)
| JStr (s : string)
| JTime (t : datetime)            (* [t.isoformat()] *)
| JList (l : list json)
| JObj (fields : list (string * json)).
#[local] Set Elimination Schemes.

Inductive Response :=
| HTTPException (status_code : nat) (detail : string)
| OK (body : json).

Module App.

Import Transitions.

Definition FSM_STATES : list string :=
  ["unissued"; "requesting"; "validating"; "issued"; "renewing"; "renewed";
   "failed"; "expired"; "revoked"; "invalid"].

Definition FSM_TRANSITIONS : list Transition :=
  [ mkTransition "request_cert" "unissued" "requesting";
    mkTransition "validate_ok" "validating" "issued";
    mkTransition "request_renewal" "issued" "renewing";
    mkTransition "renew_success" "renewing" "renewed";
    mkTransition "expired_detected" "issued" "expired";
    mkTransition "manual_revoke" "*" "revoked";
    mkTransition "invalidate" "*" "invalid";
    mkTransition "continue_cycle" "renewed" "issued" ].

(** [commit] when [updated_at] was not set on the entry: the column's
    [onupdate] default of [models.py] reads the clock for it. *)
Definition commit_onupdate (e : CertDomain) : M unit :=
  t ← now; commit (set_updated_at t e).

Definition perform_certificate_issuance (d : string) : M unit :=
  entry ← select_domain d;
  match entry with
  | None => ret tt
  | Some entry =>
    t ← now;
    let entry := set_updated_at t (set_state "requesting" entry) in
    commit entry ;;
    '(success, error_msg, expires) ← CertbotMockM.issue_certificate d;
    let entry :=
      if success : bool
      then set_last_error None (set_expires_at expires (set_state "issued" entry))
      else set_last_error error_msg (set_state "failed" entry) in
    t1 ← now;
    t2 ← now;
    commit (set_updated_at t2 (set_last_checked (Some t1) entry))
  end.

(** An exception of the authority's call ends the task where it is: the
    row keeps the state written before the call. *)
Definition perform_certificate_renewal (d : string) : M unit :=
  entry ← select_domain d;
  match entry with
  | None => ret tt
  | Some entry =>
    t ← now;
    let entry := set_updated_at t (set_state "renewing" entry) in
    commit entry ;;
    result ← CertbotMockM.renew_certificate d;
    match result with
    | inl _ => ret tt
    | inr (success, error_msg, expires) =>
      let entry :=
        if success : bool
        then set_last_error None
               (set_expires_at expires (set_state "renewed" entry))
        else set_last_error error_msg (set_state "failed" entry) in
      t1 ← now;
      t2 ← now;
      commit (set_updated_at t2 (set_last_checked (Some t1) entry))
    end
  end.

Definition perform_certificate_revocation (d : string) : M unit :=
  entry ← select_domain d;
  match entry with
  | None => ret tt
  | Some entry =>
    '(success, error_msg) ← CertbotMockM.revoke_certificate d;
    let entry :=
      if success : bool
      then set_last_error None (set_state "revoked" entry)
      else set_last_error error_msg (set_state "failed" entry) in
    t1 ← now;
    t2 ← now;
    commit (set_updated_at t2 (set_last_checked (Some t1) entry))
  end.

Definition opt_time (t : option datetime) : json :=
  match t with Some t => JTime t | None => JNull end.

Definition check_certificate_status (d : string) : M json :=
  entry ← select_domain d;
  match entry with
  | None =>
    ret (JObj [("status", JStr "error"); ("message", JStr "Domain not found")])
  | Some entry =>
    '(is_valid, status, expires) ← CertbotMockM.check_certificate d;
    t ← now;
    let entry := set_last_checked (Some t) entry in
    '(entry, updated) ←
      (if String.eqb status "expired" && negb (String.eqb (state entry) "expired")
       then t' ← now; ret (set_updated_at t' (set_state "expired" entry), true)
       else ret (entry, false));
    let entry :=
      match expires with
      | Some e => set_expires_at (Some e) entry
      | None => entry
      end in
    (if updated : bool then commit entry else commit_onupdate entry) ;;
    ret (JObj [("domain", JStr d); ("is_valid", JBool is_valid);
               ("status", JStr status); ("expires_at", opt_time expires);
               ("state", JStr (state entry))])
  end.

Fixpoint replace_underscore (s : string) : string :=
  match s with
  | EmptyString => EmptyString
  | String c s' =>
    String (if Ascii.eqb c "_" then " "%char else c) (replace_underscore s')
  end.

Definition upper (c : ascii) : ascii :=
  let n := Ascii.nat_of_ascii c in
  if ((97 <=? n) && (n <=? 122))%nat then Ascii.ascii_of_nat (n - 32) else c.

Definition lower (c : ascii) : ascii :=
  let n := Ascii.nat_of_ascii c in
  if ((65 <=? n) && (n <=? 90))%nat then Ascii.ascii_of_nat (n + 32) else c.

Fixpoint lowercase (s : string) : string :=
  match s with
  | EmptyString => EmptyString
  | String c s' => String (lower c) (lowercase s')
  end.

(** [str.capitalize] on ASCII text. *)
Definition capitalize (s : string) : string :=
  match s with
  | EmptyString => EmptyString
  | String c s' => String (upper c) (lowercase s')
  end.

Definition descriptions : list (string * string) :=
  [ ("request_cert", "Request a new certificate");
    ("validate_ok", "Validation completed successfully");
    ("request_renewal", "Request certificate renewal");
    ("renew_success", "Certificate renewed successfully");
    ("expired_detected", "Certificate has expired");
    ("manual_revoke", "Manually revoke certificate");
    ("invalidate", "Mark certificate as invalid");
    ("continue_cycle", "Continue to normal certificate lifecycle") ].

Definition get_transition_description (trig : string) : string :=
  match find (fun kv => String.eqb (fst kv) trig) descriptions with
  | Some kv => snd kv
  | None => capitalize (replace_underscore trig)
  end.

Definition get_fsm_states : Response :=
  OK (JObj [("states", JList (map JStr FSM_STATES))]).

Definition transition_json (t : Transition) : json :=
  JObj [("trigger", JStr (trigger t)); ("source", JStr (source t));
        ("dest", JStr (dest t))].

Definition get_fsm_transitions : Response :=
  OK (JObj [("transitions", JList (map transition_json FSM_TRANSITIONS))]).

Definition available_transitions (st : string) : list Transition :=
  filter (fun t => source t = st \/ source t = "*") FSM_TRANSITIONS.

Definition get_state_transitions (st : string) : Response :=
  if decide (st ∈ FSM_STATES) then
    OK (JObj
      [("state", JStr st);
       ("available_transitions",
        JList (map (fun t =>
                 JObj [("trigger", JStr (trigger t)); ("dest", JStr (dest t));
                       ("description",
                        JStr (get_transition_description (trigger t)))])
               (available_transitions st)))])
  else HTTPException 404 ("State '" ++ st ++ "' not found").

Definition domain_json (e : CertDomain) : json :=
  JObj [("domain", JStr (domain e)); ("state", JStr (state e))].

(** The column defaults of [created_at] and [updated_at] each read the
    clock when the row is inserted. *)
Definition add_domain (d : string) : M Response :=
  existing ← select_domain d;
  match existing with
  | Some _ => ret (HTTPException 400 "Domain already exists")
  | None =>
    t1 ← now;
    t2 ← now;
    let entry := mkCertDomain d true "unissued" None t1 t2 None None in
    commit entry ;;
    ret (OK (domain_json entry))
  end.

(** The rows are listed in the order of the map; the order in which the
    store answers them is not modelled. *)
Definition list_domains : M Response := fun w =>
  (OK (JList (map (fun kv => domain_json (snd kv)) (map_to_list (db w)))), w).

Definition transition_domain (d event : string) : M Response :=
  entry ← select_domain d;
  match entry with
  | None => ret (HTTPException 404 "Domain not found")
  | Some entry =>
    let current_state := state entry in
    let machine := Machine FSM_STATES FSM_TRANSITIONS current_state in
    match call machine current_state event with
    | inl e => ret (HTTPException 400 ("Transition failed: " ++ str e))
    | inr new_state =>
      t1 ← now;
      t2 ← now;
      commit (set_updated_at t2
                (set_last_checked (Some t1) (set_state new_state entry))) ;;
      ret (OK (JObj [("domain", JStr d); ("new_state", JStr new_state)]))
    end
  end.

Definition started (what d previous_state : string) : json :=
  JObj [("status", JStr "started");
        ("message", JStr ("Certificate " ++ what ++ " started for " ++ d));
        ("previous_state", JStr previous_state)].

Definition issue_certificate (d : string) : M Response :=
  entry ← select_domain d;
  match entry with
  | None => ret (HTTPException 404 "Domain not found")
  | Some entry =>
    if decide (state entry ∈ ["unissued"; "failed"; "expired"]) then
      add_task (perform_issuance_task d) ;;
      ret (OK (started "issuance" d (state entry)))
    else
      ret (HTTPException 400
             ("Cannot issue certificate for domain in state: " ++ state entry))
  end.

Definition renew_certificate (d : string) : M Response :=
  entry ← select_domain d;
  match entry with
  | None => ret (HTTPException 404 "Domain not found")
  | Some entry =>
    if decide (state entry ∈ ["issued"]) then
      add_task (perform_renewal_task d) ;;
      ret (OK (started "renewal" d (state entry)))
    else
      ret (HTTPException 400
             ("Cannot renew certificate for domain in state: " ++ state entry))
  end.

Definition revoke_certificate (d : string) : M Response :=
  entry ← select_domain d;
  match entry with
  | None => ret (HTTPException 404 "Domain not found")
  | Some entry =>
    if decide (state entry ∈ ["issued"; "renewed"]) then
      add_task (perform_revocation_task d) ;;
      ret (OK (started "revocation" d (state entry)))
    else
      ret (HTTPException 400
             ("Cannot revoke certificate for domain in state: " ++ state entry))
  end.

Definition get_certificate_status (d : string) : M Response :=
  entry ← select_domain d;
  match entry with
  | None => ret (HTTPException 404 "Domain not found")
  | Some _ => status_info ← check_certificate_status d; ret (OK status_info)
  end.

(** *** The system as a state machine

    A step is one request of the HTTP surface or the execution of the
    oldest scheduled background task. *)

Inductive Request :=
| AddDomain (d : string)
| ListDomains
| TransitionDomain (d event : string)
| IssueCertificate (d : string)
| RenewCertificate (d : string)
| RevokeCertificate (d : string)
| GetCertificateStatus (d : string)
| RunBackground.

Definition run_task (t : Task) : M unit :=
  match t with
  | perform_issuance_task d => perform_certificate_issuance d
  | perform_renewal_task d => perform_certificate_renewal d
  | perform_revocation_task d => perform_certificate_revocation d
  end.

Definition pop_task : M (option Task) := fun w =>
  match background_tasks w with
  | [] => (None, w)
  | t :: ts =>
    (Some t,
     mkWorld (wallclock w) (ticks w) (entropy w) (draws w) (slept w)
       (certbot w) (db w) ts)
  end.

Definition handle (r : Request) : M Response :=
  match r with
  | AddDomain d => add_domain d
  | ListDomains => list_domains
  | TransitionDomain d event => transition_domain d event
  | IssueCertificate d => issue_certificate d
  | RenewCertificate d => renew_certificate d
  | RevokeCertificate d => revoke_certificate d
  | GetCertificateStatus d => get_certificate_status d
  | RunBackground =>
    t ← pop_task;
    match t with
    | Some t => run_task t ;; ret (OK JNull)
    | None => ret (OK JNull)
    end
  end.

Fixpoint run (rs : list Request) (w : World) : World :=
  match rs with
  | [] => w
  | r :: rs' => run rs' (snd (handle r w))
  end.

(** A fresh process: empty database, authority without certificates. *)
Definition boot (clock : nat -> datetime) (rnd : nat -> Q) (rate lag : Q)
  : World :=
  mkWorld clock 0 rnd 0 [] (mkCertbotMock rate lag ∅) ∅ [].

End App.

(** ** Predicates on worlds and requests *)

Import Transitions App.

(** Every stored state is one of the declared ones. *)
Definition states_declared (w : World) : Prop :=
  map_Forall (fun _ e => state e ∈ FSM_STATES) (db w).

(** Rows are stored under their own domain name. *)
Definition keyed_by_domain (w : World) : Prop :=
  map_Forall (fun k e => domain e = k) (db w).

(** The fields of a row that identify it: [e'] is the row [e], possibly
    after updates. *)
Definition same_row (e e' : CertDomain) : Prop :=
  domain e' = domain e /\ enabled e' = enabled e
  /\ created_at e' = created_at e.

(** The domain a deferred task works on. *)
Definition task_domain (t : Task) : string :=
  match t with
  | perform_issuance_task d => d
  | perform_renewal_task d => d
  | perform_revocation_task d => d
  end.

(** Every scheduled task works on a stored row. *)
Definition tasks_known (w : World) : Prop :=
  Forall (fun t => is_Some (db w !! task_domain t)) (background_tasks w).


(** A clock that advances by one microsecond per reading. *)
Definition ticking_clock (n : nat) : datetime := Z.of_nat n.


(** A random source that always draws 0. *)
Definition zero_draws (n : nat) : Q := 0%Q.

(** * Properties *)

(** Unfolding of the monadic plumbing. *)
Ltac unfold_effects :=
  unfold ret, select_domain, commit, commit_onupdate, add_task, get_certbot,
    put_certs, now, random, sleep, pop_task in *;
  unfold mbind, M_bind, mret, M_ret in *.

(** Membership of a literal in a literal list of states. *)
Ltac declared := apply list_elem_of_In; cbn; tauto.

(** ** The authority *)

Section Authority.

Import CertbotMockM.

Lemma float_lt_true (x y : Q) : float_lt x y = true <-> (x < y)%Q.
Proof.
  unfold float_lt. destruct (Qlt_le_dec x y) as [H|H]; split; intros; auto.
  - discriminate.
  - exfalso. apply (Qlt_not_le _ _ H0 H).
Qed.

(** C8. For a domain without an authority record, renew and revoke return
    (no exception is raised) failure with the "no certificate found"
    message and leave the world exactly as it was: nothing is slept, no
    random value is drawn, the clock is not read and the authority's
    certificates are unchanged. *)
Theorem renew_revoke_without_record (d : string) (w : World) :
  certs (certbot w) !! d = None ->
  renew_certificate d w
    = (inr (false, Some ("Mock: No certificate found for " ++ d), None), w)
  /\ revoke_certificate d w
    = ((false, Some ("Mock: No certificate found for " ++ d)), w).
Proof.
  intros Habs. unfold renew_certificate, revoke_certificate.
  unfold_effects. cbn. rewrite Habs. split; reflexivity.
Qed.

Lemma renew_revoke_without_record_witness :
  let w := boot ticking_clock zero_draws 1 1 in
  slept (snd (renew_certificate "example.com" w)) = []
  /\ draws (snd (revoke_certificate "example.com" w)) = 0%nat.
Proof.
  intros w.
  destruct (renew_revoke_without_record "example.com" w) as [H1 H2].
  - reflexivity.
  - rewrite H1, H2. split; reflexivity.
Defined.

(** C3. Classification by [check_certificate].  [now1] is the clock
    reading at the comparison with the expiry, [now2] the reading at the
    comparison with the thirty-day horizon (the two coincide when the clock
    stands still during the call).  The result is [not_found] without a
    record; [revoked] for a revoked record, whatever its expiry;
    [expired] when the expiry is before [now1]; [expiring_soon] when it is
    not, but is less than 30 days after [now2]; [valid] otherwise.  The
    flag is true exactly for [valid] and [expiring_soon]. *)
Theorem check_certificate_classification (d : string) (w : World) :
  let now1 := wallclock w (ticks w) in
  let now2 := wallclock w (S (ticks w)) in
  let result := fst (check_certificate d w) in
  (certs (certbot w) !! d = None -> result = (false, "not_found", None))
  /\ (forall c, certs (certbot w) !! d = Some c ->
       (status c = "revoked" -> result = (false, "revoked", None))
       /\ (status c <> "revoked" -> cert_expires_at c < now1 ->
           result = (false, "expired", Some (cert_expires_at c)))
       /\ (status c <> "revoked" -> now1 <= cert_expires_at c ->
           cert_expires_at c < now2 + timedelta 30 ->
           result = (true, "expiring_soon", Some (cert_expires_at c)))
       /\ (status c <> "revoked" -> now1 <= cert_expires_at c ->
           now2 + timedelta 30 <= cert_expires_at c ->
           result = (true, "valid", Some (cert_expires_at c))))
  /\ (fst (fst result) = true <->
       snd (fst result) = "valid" \/ snd (fst result) = "expiring_soon").
Proof.
  intros now1 now2 result. subst result now1 now2.
  unfold check_certificate. unfold_effects. cbn.
  destruct (certs (certbot w) !! d) as [c|] eqn:Hc.
  2:{ cbn. repeat split; try discriminate; intuition discriminate. }
  destruct (String.eqb_spec (status c) "revoked") as [Hr|Hr].
  { cbn. split; [discriminate|]. split.
    - intros c' [= <-]. repeat split; intros; congruence.
    - split; [discriminate | intuition discriminate]. }
  cbn. destruct (Z.ltb_spec (cert_expires_at c) (wallclock w (ticks w))) as [H1|H1].
  { cbn. split; [discriminate|]. split.
    - intros c' [= <-]. repeat split; intros; try congruence; lia.
    - split; [discriminate | intuition discriminate]. }
  cbn.
  destruct (Z.ltb_spec (cert_expires_at c)
              (wallclock w (S (ticks w)) + timedelta 30)) as [H2|H2].
  - cbn. split; [discriminate|]. split.
    + intros c' [= <-]. repeat split; intros; try congruence; lia.
    + split; auto.
  - cbn. split; [discriminate|]. split.
    + intros c' [= <-]. repeat split; intros; try congruence; lia.
    + split; auto.
Qed.

(** A certificate issued at the start of the clock and checked 61 days
    later expires in 29 days. *)
Lemma check_certificate_classification_witness :
  let w := mkWorld (fun _ => timedelta 61) 0 (fun _ => 0%Q) 0 []
             (mkCertbotMock 1 1
                {["example.com" := mkCert "issued" (timedelta 90) 0 None None]})
             ∅ [] in
  fst (check_certificate "example.com" w)
    = (true, "expiring_soon", Some (timedelta 90)).
Proof.
  intros w.
  destruct (check_certificate_classification "example.com" w)
    as (_ & Hrec & _).
  destruct (Hrec (mkCert "issued" (timedelta 90) 0 None None)) as (_ & _ & Hsoon & _).
  - reflexivity.
  - apply Hsoon; [discriminate | vm_compute; discriminate | reflexivity].
Defined.

End Authority.

(** ** The domain record *)

Section Record.

Import Models.

(** With an aware expiry the helper answers, and it answers true exactly
    when the state is [issued] and the expiry is absent or not before the
    current clock reading. *)
Lemma is_valid_aware (self : CertDomain) (w : World) :
  (exists b, fst (is_valid aware self w) = inr b)
  /\ (fst (is_valid aware self w) = inr true <->
      state self = "issued"
      /\ (expires_at self = None
          \/ exists e, expires_at self = Some e
                       /\ ~ e < wallclock w (ticks w))).
Proof.
  unfold is_valid, is_expired, before_now, is_revoked. unfold_effects.
  destruct (String.eqb_spec (state self) "issued") as [Hs|Hs].
  - rewrite Hs.
    destruct (expires_at self) as [e|]; cbn.
    + destruct (Z.ltb_spec e (wallclock w (ticks w))) as [Hlt|Hge]; cbn.
      * split; [eauto|]. split; [discriminate|].
        intros (_ & [Hn | (e' & [= <-] & Hn)]); [discriminate | contradiction].
      * split; [eauto|]. split; auto.
        intros _. split; auto. right. exists e. split; auto. lia.
    + split; [eauto|]. split; auto.
  - cbn. split; [eauto|].
    split; [discriminate | intros [? _]; contradiction].
Qed.

(** Whatever the kind of the expiry, a record that is not [issued] is not
    valid, and neither its expiry nor the clock is looked at: this holds
    for every record in state [renewed]. *)
Lemma is_valid_not_issued (tz : tzinfo) (self : CertDomain) (w : World) :
  state self <> "issued" -> is_valid tz self w = (inr false, w).
Proof.
  intros Hs. unfold is_valid. apply String.eqb_neq in Hs. rewrite Hs.
  reflexivity.
Qed.

(** An expiry read back from the store makes the helper raise on an
    [issued] record, whether the certificate has run out or not. *)
Lemma is_valid_naive_raises (self : CertDomain) (e : datetime) (w : World) :
  state self = "issued" -> expires_at self = Some e ->
  fst (is_valid naive self w) = inl TypeError.
Proof.
  intros Hs He. unfold is_valid, is_expired, before_now. unfold_effects.
  rewrite Hs, He. reflexivity.
Qed.

(** C10, evaluated.  After create, Issue and the deferred issuance the
    stored row is [issued] and its expiry lies 90 days ahead of the clock,
    so the validity helper should answer true.  The expiry read back from
    the store carries no time zone: its comparison with the aware clock
    reading raises [TypeError]. *)
Theorem is_valid_raises_on_stored_row :
  let w := App.run [AddDomain "example.com"; IssueCertificate "example.com";
                    RunBackground]
             (boot ticking_clock zero_draws 1 1) in
  let row := mkCertDomain "example.com" true "issued"
               (Some (3 + timedelta 90)) 0 6 (Some 5) None in
  db w !! "example.com" = Some row
  /\ wallclock w (ticks w) <= 3 + timedelta 90
  /\ fst (is_valid naive row w) = inl TypeError.
Proof.
  split; [vm_compute; reflexivity|]. split.
  - vm_compute. discriminate.
  - reflexivity.
Qed.

End Record.

(** ** The orchestrator *)

Section Orchestrator.

(** C2. For an existing record, Issue answers 400 exactly when the state
    is not among unissued, failed, expired; Renew exactly when it is not
    issued; Revoke exactly when it is not among issued, renewed.  Whenever
    one of them answers with an error the world is left as it was: no task
    is scheduled, the record and the authority are untouched. *)
Theorem orchestrated_preconditions (d : string) (e : CertDomain) (w : World) :
  db w !! d = Some e ->
  ((exists msg, fst (issue_certificate d w) = HTTPException 400 msg)
     <-> state e ∉ ["unissued"; "failed"; "expired"])
  /\ ((exists msg, fst (renew_certificate d w) = HTTPException 400 msg)
     <-> state e ∉ ["issued"])
  /\ ((exists msg, fst (revoke_certificate d w) = HTTPException 400 msg)
     <-> state e ∉ ["issued"; "renewed"])
  /\ (forall code msg,
        fst (issue_certificate d w) = HTTPException code msg
        \/ fst (renew_certificate d w) = HTTPException code msg
        \/ fst (revoke_certificate d w) = HTTPException code msg ->
        code = 400%nat)
  /\ (forall code msg, fst (issue_certificate d w) = HTTPException code msg ->
        snd (issue_certificate d w) = w)
  /\ (forall code msg, fst (renew_certificate d w) = HTTPException code msg ->
        snd (renew_certificate d w) = w)
  /\ (forall code msg, fst (revoke_certificate d w) = HTTPException code msg ->
        snd (revoke_certificate d w) = w).
Proof.
  intros He.
  unfold issue_certificate, renew_certificate, revoke_certificate.
  unfold_effects. cbn. rewrite He.
  repeat split;
    repeat match goal with
           | |- context [decide ?P] => destruct (decide P)
           end; cbn;
    try solve [ intros [? ?]; discriminate
              | intros; contradiction
              | intros; eauto
              | intros; discriminate
              | intros ? ? ?; intuition congruence ].
Qed.

Lemma orchestrated_preconditions_witness :
  let w := snd (add_domain "example.com"
                  (boot ticking_clock zero_draws 1 1)) in
  snd (renew_certificate "example.com" w) = w.
Proof.
  intros w.
  destruct (orchestrated_preconditions "example.com"
              (mkCertDomain "example.com" true "unissued" None 0 1 None None) w)
    as (_ & Hrenew & _ & _ & _ & Hsame & _).
  - reflexivity.
  - destruct (proj2 Hrenew) as [msg Hmsg].
    + intros Hin. apply list_elem_of_In in Hin. cbn in Hin.
      destruct Hin as [Hin|[]]. discriminate Hin.
    + exact (Hsame _ _ Hmsg).
Defined.

(** When a renewal returns success: the draw is below the success rate
    and the stored expiry plus 90 days is a [datetime]. *)
Lemma renew_certificate_outcome (d : string) (c : Cert) (w : World) :
  certs (certbot w) !! d = Some c ->
  let drawn := CertbotMockM.float_lt (entropy w (draws w))
                 (success_rate (certbot w)) in
  fst (CertbotMockM.renew_certificate d w)
  = if drawn then
      if cert_expires_at c + timedelta 90 <=? datetime_max
      then inr (true, None, Some (cert_expires_at c + timedelta 90))
      else inl OverflowError
    else inr (false, Some ("Mock: Failed to renew certificate for " ++ d), None).
Proof.
  intros Hc drawn. subst drawn.
  unfold CertbotMockM.renew_certificate, add_timedelta. unfold_effects. cbn.
  rewrite Hc. cbn.
  destruct (CertbotMockM.float_lt _ _); cbn; [|reflexivity].
  destruct (_ <=? _); reflexivity.
Qed.

(** C4. When the authority holds a record for the domain with expiry [T]
    and the renewal is successful (the authority's call returns success),
    the authority's new expiry is [T] plus 90 days, whatever the clock
    reads, and the deferred renewal stores that value as the record's
    [expires_at], with state [renewed]. *)
Theorem renewal_extends_stored_expiry (d : string) (e : CertDomain) (c : Cert)
    (T : datetime) (msg : option string) (x : option datetime) (w : World) :
  db w !! d = Some e -> domain e = d ->
  certs (certbot w) !! d = Some c -> cert_expires_at c = T ->
  fst (CertbotMockM.renew_certificate d w) = inr (true, msg, x) ->
  let w' := snd (perform_certificate_renewal d w) in
  x = Some (T + timedelta 90)
  /\ (exists c', certs (certbot w') !! d = Some c'
                 /\ cert_expires_at c' = T + timedelta 90)
  /\ (exists e', db w' !! d = Some e'
                 /\ expires_at e' = Some (T + timedelta 90)
                 /\ state e' = "renewed").
Proof.
  intros He Hd Hc HT Hok w'. subst w'.
  rewrite (renew_certificate_outcome d c w Hc) in Hok. cbn zeta in Hok.
  destruct (CertbotMockM.float_lt _ _) eqn:Hdraw; [|discriminate Hok].
  destruct (_ <=? _) eqn:Hrange; [|discriminate Hok].
  injection Hok as <- <-. rewrite HT in *.
  unfold perform_certificate_renewal, CertbotMockM.renew_certificate,
    add_timedelta.
  unfold_effects. cbn. rewrite He. cbn. rewrite Hc. cbn. rewrite Hdraw. cbn.
  rewrite HT, Hrange. cbn. rewrite Hd.
  split; [reflexivity|]. split.
  - eexists. rewrite lookup_insert_eq. split; reflexivity.
  - eexists. rewrite lookup_insert_eq. repeat split; reflexivity.
Qed.

Lemma renewal_extends_stored_expiry_witness :
  let w := App.run [AddDomain "example.com"; IssueCertificate "example.com";
                    RunBackground]
             (boot ticking_clock zero_draws 1 1) in
  exists e', db (snd (perform_certificate_renewal "example.com" w))
               !! "example.com" = Some e'
             /\ expires_at e' = Some (3 + timedelta 90 + timedelta 90)
             /\ state e' = "renewed".
Proof.
  intros w.
  refine (proj2 (proj2
    (renewal_extends_stored_expiry "example.com"
       (mkCertDomain "example.com" true "issued" (Some (3 + timedelta 90)) 0 6
          (Some 5) None)
       (mkCert "issued" (3 + timedelta 90) 4 None None)
       (3 + timedelta 90) None (Some (3 + timedelta 90 + timedelta 90))
       w _ _ _ _ _)));
    vm_compute; reflexivity.
Defined.

(** A renewal that would pass [datetime.max] raises: the authority's
    certificate is as before and the deferred renewal leaves the row in
    state [renewing]. *)
Lemma renewal_out_of_range (d : string) (e : CertDomain) (c : Cert)
    (w : World) :
  db w !! d = Some e -> domain e = d ->
  certs (certbot w) !! d = Some c ->
  (entropy w (draws w) < success_rate (certbot w))%Q ->
  datetime_max < cert_expires_at c + timedelta 90 ->
  let w' := snd (perform_certificate_renewal d w) in
  fst (CertbotMockM.renew_certificate d w) = inl OverflowError
  /\ certs (certbot w') = certs (certbot w)
  /\ (state <$> db w' !! d) = Some "renewing".
Proof.
  intros He Hd Hc Hdraw Hmax w'. subst w'.
  apply float_lt_true in Hdraw. apply Z.leb_gt in Hmax.
  rewrite (renew_certificate_outcome d c w Hc). cbn zeta.
  rewrite Hdraw, Hmax. split; [reflexivity|].
  unfold perform_certificate_renewal, CertbotMockM.renew_certificate,
    add_timedelta.
  unfold_effects. cbn. rewrite He. cbn. rewrite Hc. cbn. rewrite Hdraw. cbn.
  rewrite Hmax. cbn. rewrite Hd, lookup_insert_eq. split; reflexivity.
Qed.

(** The effect of [check_certificate_status] on an existing row. *)
Lemma check_certificate_status_effect (d : string) (e : CertDomain) (w : World) :
  db w !! d = Some e -> domain e = d ->
  let answer := CertbotMockM.check_certificate d w in
  let st := snd (fst (fst answer)) in
  let expiry := snd (fst answer) in
  let w' := snd (check_certificate_status d w) in
  exists e', db w' !! d = Some e'
    /\ (state e' = "expired" /\ state e <> "expired"
          <-> st = "expired" /\ state e <> "expired")
    /\ (~ (st = "expired" /\ state e <> "expired") -> state e' = state e)
    /\ last_checked e' = Some (wallclock w (ticks (snd answer)))
    /\ expires_at e' = match expiry with
                       | Some x => Some x
                       | None => expires_at e
                       end
    /\ (forall d', d' <> d -> db w' !! d' = db w !! d')
    /\ certbot w' = certbot w.
Proof.
  intros He Hd answer st expiry w'. subst w' st expiry answer.
  unfold check_certificate_status. unfold_effects. cbn. rewrite He.
  destruct (CertbotMockM.check_certificate d w) as [[[valid st] expiry] w1] eqn:Hans.
  assert (Hw1 : db w1 = db w /\ certbot w1 = certbot w /\ wallclock w1 = wallclock w).
  { revert Hans. unfold CertbotMockM.check_certificate. unfold_effects. cbn.
    repeat match goal with
           | |- context [match ?x with _ => _ end] => destruct x; cbn
           end; intros [= <- <- <- <-]; cbn; auto. }
  destruct Hw1 as (Hdb & Hcb & Hclock).
  cbn. destruct (String.eqb_spec st "expired") as [Hst|Hst];
    destruct (String.eqb_spec (state e) "expired") as [Hse|Hse]; cbn;
    destruct expiry as [x|]; cbn; rewrite ?Hd, ?Hdb, ?Hcb, ?Hclock;
    eexists; (split; [apply lookup_insert_eq|]); cbn;
    (repeat split; try tauto; try reflexivity; try congruence;
     try (intros; apply lookup_insert_ne; congruence)).
Qed.

(** C7. Check on an existing record: the stored state becomes [expired]
    when the authority answers [expired] and the state was not [expired]
    already, and is kept in every other case; [last_checked] is always set
    to the clock reading taken after the authority's answer; [expires_at]
    is replaced exactly when the authority returned an expiry.  No other
    row and nothing of the authority changes. *)
Theorem check_reconciles_expiry_only (d : string) (e : CertDomain) (w : World) :
  db w !! d = Some e -> domain e = d ->
  let answer := CertbotMockM.check_certificate d w in
  let st := snd (fst (fst answer)) in
  let expiry := snd (fst answer) in
  let w' := snd (check_certificate_status d w) in
  exists e', db w' !! d = Some e'
    /\ (state e' = "expired" /\ state e <> "expired"
          <-> st = "expired" /\ state e <> "expired")
    /\ (~ (st = "expired" /\ state e <> "expired") -> state e' = state e)
    /\ last_checked e' = Some (wallclock w (ticks (snd answer)))
    /\ expires_at e' = match expiry with
                       | Some x => Some x
                       | None => expires_at e
                       end
    /\ (forall d', d' <> d -> db w' !! d' = db w !! d')
    /\ certbot w' = certbot w.
Proof. exact (check_certificate_status_effect d e w). Qed.

Lemma check_reconciles_expiry_only_witness :
  let w := App.run [AddDomain "example.com"; IssueCertificate "example.com";
                    RunBackground]
             (boot (fun n => if (n <? 7)%nat then Z.of_nat n else timedelta 365)
                   (fun _ => 0%Q) 1 1) in
  exists e', db (snd (check_certificate_status "example.com" w))
               !! "example.com" = Some e'
             /\ state e' = "expired".
Proof.
  intros w.
  destruct (check_reconciles_expiry_only "example.com"
              (mkCertDomain "example.com" true "issued" (Some (3 + timedelta 90))
                 0 6 (Some 5) None) w)
    as (e' & Hlook & Hiff & _).
  - reflexivity.
  - reflexivity.
  - exists e'. split; [exact Hlook|].
    apply (proj2 Hiff). split; [reflexivity | discriminate].
Defined.

End Orchestrator.

(** ** The state invariant *)

Section Invariant.

Lemma call_dest (machine : FSM) (current event new_state : string) :
  call machine current event = inr new_state ->
  (exists t, In t (fsm_events machine) /\ has_trigger event t = true
             /\ from_state current t = true /\ dest t = new_state)
  \/ new_state = current.
Proof.
  unfold call. destruct (existsb _ (fsm_events machine)).
  - destruct (find _ (fsm_events machine)) as [t|] eqn:Hfind; [|discriminate].
    intros [= <-]. apply find_some in Hfind as [Hin Hb].
    apply andb_true_iff in Hb as [Ht Hs]. left. eauto.
  - destruct (existsb _ (quiet_names machine)); [|discriminate].
    intros [= <-]. right. reflexivity.
Qed.

Lemma machine_states_declared (current : string) :
  current ∈ FSM_STATES -> machine_states FSM_STATES current = FSM_STATES.
Proof.
  intros Hin. unfold machine_states. destruct (decide _); [reflexivity|contradiction].
Qed.

Lemma machine_dest_declared (current : string) (t : Transition) :
  current ∈ FSM_STATES ->
  In t (fsm_events (Machine FSM_STATES FSM_TRANSITIONS current)) ->
  dest t ∈ FSM_STATES.
Proof.
  intros Hcur. unfold Machine. rewrite machine_states_declared by exact Hcur.
  cbn. intros Hin.
  repeat (destruct Hin as [<- | Hin]; [apply list_elem_of_In; cbn; tauto|]).
  destruct Hin.
Qed.

Lemma commit_states_declared (e : CertDomain) (w : World) :
  states_declared w -> state e ∈ FSM_STATES ->
  states_declared (snd (commit e w)).
Proof.
  intros Hw He. unfold states_declared, commit. cbn.
  apply map_Forall_insert_2; assumption.
Qed.

Lemma authority_keeps_db (d : string) (w : World) :
  db (snd (CertbotMockM.issue_certificate d w)) = db w
  /\ db (snd (CertbotMockM.renew_certificate d w)) = db w
  /\ db (snd (CertbotMockM.revoke_certificate d w)) = db w
  /\ db (snd (CertbotMockM.check_certificate d w)) = db w.
Proof.
  unfold CertbotMockM.issue_certificate, CertbotMockM.renew_certificate,
    CertbotMockM.revoke_certificate, CertbotMockM.check_certificate.
  unfold_effects. cbn.
  repeat split;
    repeat match goal with
           | |- context [match ?x with _ => _ end] => destruct x; cbn
           end; reflexivity.
Qed.

Lemma run_task_states_declared (t : Task) (w : World) :
  states_declared w -> states_declared (snd (run_task t w)).
Proof.
  intros Hw. unfold states_declared in *.
  destruct t as [d|d|d]; cbn;
    unfold perform_certificate_issuance, perform_certificate_renewal,
      perform_certificate_revocation; unfold_effects; cbn;
    destruct (db w !! d) as [e|] eqn:He; cbn; try exact Hw.
  - pose proof (proj1 (authority_keeps_db d
      (mkWorld (wallclock w) (S (ticks w)) (entropy w) (draws w) (slept w)
         (certbot w)
         (<[domain e := set_updated_at (wallclock w (ticks w))
                          (set_state "requesting" e)]> (db w))
         (background_tasks w)))) as Hdb.
    destruct (CertbotMockM.issue_certificate d _) as [[[ok msg] expiry] w1].
    cbn in *. rewrite Hdb.
    apply map_Forall_insert_2; [destruct ok; cbn; declared|].
    apply map_Forall_insert_2; [cbn; declared | exact Hw].
  - pose proof (proj1 (proj2 (authority_keeps_db d
      (mkWorld (wallclock w) (S (ticks w)) (entropy w) (draws w) (slept w)
         (certbot w)
         (<[domain e := set_updated_at (wallclock w (ticks w))
                          (set_state "renewing" e)]> (db w))
         (background_tasks w))))) as Hdb.
    destruct (CertbotMockM.renew_certificate d _)
      as [[err | [[ok msg] expiry]] w1];
      cbn in *; rewrite Hdb.
    + apply map_Forall_insert_2; [cbn; declared | exact Hw].
    + apply map_Forall_insert_2; [destruct ok; cbn; declared|].
      apply map_Forall_insert_2; [cbn; declared | exact Hw].
  - pose proof (proj1 (proj2 (proj2 (authority_keeps_db d w)))) as Hdb.
    destruct (CertbotMockM.revoke_certificate d w) as [[ok msg] w1].
    cbn in *. rewrite Hdb.
    apply map_Forall_insert_2; [destruct ok; cbn; declared | exact Hw].
Qed.

Lemma handle_states_declared (r : Request) (w : World) :
  states_declared w -> states_declared (snd (handle r w)).
Proof.
  intros Hw. destruct r as [d| |d event|d|d|d|d|]; cbn.
  - unfold add_domain. unfold_effects. cbn.
    destruct (db w !! d); cbn; [exact Hw|].
    apply map_Forall_insert_2; [cbn; declared | exact Hw].
  - exact Hw.
  - unfold transition_domain. unfold_effects. cbn.
    destruct (db w !! d) as [e|] eqn:He; cbn; [|exact Hw].
    destruct (call _ (state e) event) as [err|new_state] eqn:Hcall; cbn;
      [exact Hw|].
    apply map_Forall_insert_2; [|exact Hw]. cbn.
    apply call_dest in Hcall as [(t & Hin & _ & _ & <-) | ->];
      [|exact (Hw d e He)].
    apply (machine_dest_declared (state e)); [|exact Hin].
    exact (Hw d e He).
  - unfold issue_certificate. unfold_effects. cbn.
    destruct (db w !! d); cbn; [|exact Hw]. destruct (decide _); exact Hw.
  - unfold renew_certificate. unfold_effects. cbn.
    destruct (db w !! d); cbn; [|exact Hw]. destruct (decide _); exact Hw.
  - unfold revoke_certificate. unfold_effects. cbn.
    destruct (db w !! d); cbn; [|exact Hw]. destruct (decide _); exact Hw.
  - unfold get_certificate_status, check_certificate_status.
    unfold_effects. cbn.
    destruct (db w !! d) as [e|] eqn:He; cbn; [|exact Hw].
    rewrite He.
    pose proof (proj2 (proj2 (proj2 (authority_keeps_db d w)))) as Hdb.
    destruct (CertbotMockM.check_certificate d w) as [[[valid st] expiry] w1].
    cbn in *. pose proof (Hw d e He) as Hse. unfold states_declared.
    destruct (String.eqb st "expired" && negb (String.eqb (state e) "expired"));
      cbn; destruct expiry; cbn; rewrite Hdb;
      (apply map_Forall_insert_2; [cbn; first [exact Hse | declared] | exact Hw]).
  - unfold_effects. cbn.
    destruct (background_tasks w) as [|t ts] eqn:Hts; cbn; [exact Hw|].
    pose proof (run_task_states_declared t
      (mkWorld (wallclock w) (ticks w) (entropy w) (draws w) (slept w)
         (certbot w) (db w) ts) Hw) as Hrun.
    destruct (run_task t _) as [[] w1]. exact Hrun.
Qed.

(** C1. In every world reached from a fresh process by any sequence of
    requests and background executions (create, list, generic transition,
    the Issue, Renew and Revoke requests and their deferred work, check),
    every record's state is one of the ten declared states. *)
Theorem state_always_declared (clock : nat -> datetime) (rnd : nat -> Q)
    (rate lag : Q) (rs : list Request) :
  states_declared (App.run rs (boot clock rnd rate lag)).
Proof.
  assert (Hboot : states_declared (boot clock rnd rate lag)).
  { unfold states_declared, boot. cbn. apply map_Forall_empty. }
  revert Hboot. generalize (boot clock rnd rate lag).
  induction rs as [|r rs IH]; intros w Hw; cbn; [exact Hw|].
  apply IH, handle_states_declared, Hw.
Qed.

(** Rows stay stored under their own domain name. *)
Lemma handle_keyed_by_domain (r : Request) (w : World) :
  keyed_by_domain w -> keyed_by_domain (snd (handle r w)).
Proof.
  intros Hw. unfold keyed_by_domain in *.
  destruct r as [d| |d event|d|d|d|d|]; cbn.
  - unfold add_domain. unfold_effects. cbn.
    destruct (db w !! d); cbn; [exact Hw|].
    apply map_Forall_insert_2; [reflexivity | exact Hw].
  - exact Hw.
  - unfold transition_domain. unfold_effects. cbn.
    destruct (db w !! d) as [e|]; cbn; [|exact Hw].
    destruct (call _ (state e) event); cbn; [exact Hw|].
    apply map_Forall_insert_2; [reflexivity | exact Hw].
  - unfold issue_certificate. unfold_effects. cbn.
    destruct (db w !! d); cbn; [|exact Hw]. destruct (decide _); exact Hw.
  - unfold renew_certificate. unfold_effects. cbn.
    destruct (db w !! d); cbn; [|exact Hw]. destruct (decide _); exact Hw.
  - unfold revoke_certificate. unfold_effects. cbn.
    destruct (db w !! d); cbn; [|exact Hw]. destruct (decide _); exact Hw.
  - unfold get_certificate_status, check_certificate_status.
    unfold_effects. cbn.
    destruct (db w !! d) as [e|] eqn:He; cbn; [|exact Hw].
    rewrite He.
    pose proof (proj2 (proj2 (proj2 (authority_keeps_db d w)))) as Hdb.
    destruct (CertbotMockM.check_certificate d w) as [[[valid st] expiry] w1].
    cbn in *.
    destruct (String.eqb st "expired" && negb (String.eqb (state e) "expired"));
      cbn; destruct expiry; cbn; rewrite Hdb;
      (apply map_Forall_insert_2; [reflexivity | exact Hw]).
  - unfold_effects. cbn.
    destruct (background_tasks w) as [|t ts]; cbn; [exact Hw|].
    destruct t as [d|d|d]; cbn;
      unfold perform_certificate_issuance, perform_certificate_renewal,
        perform_certificate_revocation; unfold_effects; cbn;
      destruct (db w !! d) as [e|]; cbn; try exact Hw.
    + match goal with
      | |- context [CertbotMockM.issue_certificate d ?w0] =>
        pose proof (proj1 (authority_keeps_db d w0)) as Hdb;
        destruct (CertbotMockM.issue_certificate d w0) as [[[ok msg] expiry] w1]
      end.
      cbn in *. rewrite Hdb.
      apply map_Forall_insert_2; [destruct ok; reflexivity|].
      apply map_Forall_insert_2; [reflexivity | exact Hw].
    + match goal with
      | |- context [CertbotMockM.renew_certificate d ?w0] =>
        pose proof (proj1 (proj2 (authority_keeps_db d w0))) as Hdb;
        destruct (CertbotMockM.renew_certificate d w0)
          as [[err | [[ok msg] expiry]] w1]
      end;
        cbn in *; rewrite Hdb.
      * apply map_Forall_insert_2; [reflexivity | exact Hw].
      * apply map_Forall_insert_2; [destruct ok; reflexivity|].
        apply map_Forall_insert_2; [reflexivity | exact Hw].
    + match goal with
      | |- context [CertbotMockM.revoke_certificate d ?w0] =>
        pose proof (proj1 (proj2 (proj2 (authority_keeps_db d w0)))) as Hdb;
        destruct (CertbotMockM.revoke_certificate d w0) as [[ok msg] w1]
      end.
      cbn in *. rewrite Hdb.
      apply map_Forall_insert_2; [destruct ok; reflexivity | exact Hw].
Qed.

(** In every world reached from a fresh process each row is stored under
    its own domain name. *)
Lemma reachable_keyed_by_domain (clock : nat -> datetime) (rnd : nat -> Q)
    (rate lag : Q) (rs : list Request) :
  keyed_by_domain (App.run rs (boot clock rnd rate lag)).
Proof.
  assert (Hboot : keyed_by_domain (boot clock rnd rate lag)).
  { unfold keyed_by_domain, boot. cbn. apply map_Forall_empty. }
  revert Hboot. generalize (boot clock rnd rate lag).
  induction rs as [|r rs IH]; intros w Hw; cbn; [exact Hw|].
  apply IH, handle_keyed_by_domain, Hw.
Qed.

End Invariant.

(** ** Issuance with a certain success *)

Section Issuance.

(** Supporting fact for C6.  With a success rate of 1 and draws in
    [0, 1), the deferred issuance of an existing record ends in state
    [issued] with [last_error] cleared; the stored expiry is the clock
    reading taken when the authority computes it, plus 90 days, and the
    authority's [issued_at] is the reading taken right after that one. *)
Lemma issuance_certain_success (d : string) (e : CertDomain) (w : World) :
  db w !! d = Some e -> domain e = d ->
  (success_rate (certbot w) == 1)%Q ->
  (forall n, (0 <= entropy w n)%Q /\ (entropy w n < 1)%Q) ->
  let w' := snd (perform_certificate_issuance d w) in
  let t_expiry := wallclock w (S (ticks w)) in
  let t_issued := wallclock w (S (S (ticks w))) in
  exists e' c',
    db w' !! d = Some e' /\ certs (certbot w') !! d = Some c'
    /\ state e' = "issued" /\ last_error e' = None
    /\ expires_at e' = Some (t_expiry + timedelta 90)
    /\ cert_expires_at c' = t_expiry + timedelta 90
    /\ issued_at c' = t_issued.
Proof.
  intros He Hd Hrate Hdraw w' t_expiry t_issued. subst w' t_expiry t_issued.
  assert (Hlt : CertbotMockM.float_lt (entropy w (draws w))
                  (success_rate (certbot w)) = true).
  { apply float_lt_true. rewrite Hrate. apply Hdraw. }
  unfold perform_certificate_issuance, CertbotMockM.issue_certificate.
  unfold_effects. cbn. rewrite He. cbn. rewrite Hlt. cbn. rewrite Hd.
  eexists. eexists. rewrite !lookup_insert_eq. repeat split; reflexivity.
Qed.

(** C6, evaluated.  The clock advances by one microsecond per reading and
    the success rate is 1.  After create, Issue and the deferred issuance
    the record is [issued] with no error, but its expiry was computed from
    the reading before the one stored as [issued_at]: it is one
    microsecond short of [issued_at] plus 90 days. *)
Theorem issuance_expiry_and_issued_at_differ :
  let w := App.run [AddDomain "example.com"; IssueCertificate "example.com";
                    RunBackground]
             (boot ticking_clock zero_draws 1 1) in
  db w !! "example.com"
    = Some (mkCertDomain "example.com" true "issued" (Some (3 + timedelta 90))
              0 6 (Some 5) None)
  /\ certs (certbot w) !! "example.com"
    = Some (mkCert "issued" (3 + timedelta 90) 4 None None)
  /\ 3 + timedelta 90 = (4 + timedelta 90) - 1.
Proof.
  vm_compute. repeat split; reflexivity.
Qed.

End Issuance.

(** ** The generic transition endpoint *)

Section Generic.

(** The triggers of the table on a record in a declared state: the
    auto-transitions never answer for them, so the outcome is that of the
    first row of the table with that trigger and a source equal to the
    current state or the wildcard. *)
Lemma table_trigger_outcome (current event : string) :
  current ∈ FSM_STATES ->
  event ∈ map trigger FSM_TRANSITIONS ->
  call (Machine FSM_STATES FSM_TRANSITIONS current) current event
  = match find (fun t => has_trigger event t && from_state current t)
            FSM_TRANSITIONS with
    | Some t => inr (dest t)
    | None => inl (MachineError ("Can't trigger event " ++ event
                                   ++ " from state " ++ current ++ "!"))
    end.
Proof.
  intros Hcur Hev. unfold Machine.
  rewrite machine_states_declared by exact Hcur.
  apply list_elem_of_In in Hev. cbn in Hev.
  repeat (destruct Hev as [<- | Hev]; [reflexivity|]). destruct Hev.
Qed.

(** The same at the endpoint: a trigger of the table is accepted exactly
    when such a row exists; its destination is answered and stored, and a
    rejection changes nothing. *)
Lemma transition_domain_table_trigger (d event : string) (e : CertDomain)
    (w : World) :
  db w !! d = Some e -> domain e = d -> state e ∈ FSM_STATES ->
  event ∈ map trigger FSM_TRANSITIONS ->
  match find (fun t => has_trigger event t && from_state (state e) t)
          FSM_TRANSITIONS with
  | Some t =>
    fst (transition_domain d event w)
      = OK (JObj [("domain", JStr d); ("new_state", JStr (dest t))])
    /\ (state <$> db (snd (transition_domain d event w)) !! d) = Some (dest t)
  | None =>
    fst (transition_domain d event w)
      = HTTPException 400
          ("Transition failed: "
             ++ str (MachineError ("Can't trigger event " ++ event
                                     ++ " from state " ++ state e ++ "!")))
    /\ snd (transition_domain d event w) = w
  end.
Proof.
  intros He Hd Hst Hev. unfold transition_domain. unfold_effects.
  cbn [fst snd]. rewrite He.
  rewrite (table_trigger_outcome (state e) event Hst Hev).
  destruct (find _ FSM_TRANSITIONS) as [t|]; cbn.
  - rewrite Hd, lookup_insert_eq. split; reflexivity.
  - split; reflexivity.
Qed.

(** The two rejections carry different messages. *)
Lemma rejection_messages_differ (event current event' : string) :
  str (MachineError ("Can't trigger event " ++ event ++ " from state "
                       ++ current ++ "!"))
  <> str (AttributeError ("'FSMWrapper' object has no attribute '"
                            ++ event' ++ "'")).
Proof. cbn. discriminate. Qed.

(** What [get_state_transitions] offers for a revoked record: the two
    wildcard rows, and no trigger named [to_issued]. *)
Lemma available_from_revoked :
  available_transitions "revoked"
  = [ mkTransition "manual_revoke" "*" "revoked";
      mkTransition "invalidate" "*" "invalid" ].
Proof. reflexivity. Qed.

(** C9, evaluated.  No row of the table has trigger [to_issued], yet the
    generic endpoint accepts it on a revoked record and stores [issued]. *)
Theorem generic_endpoint_accepts_auto_transition :
  let w := App.run [AddDomain "example.com";
                    TransitionDomain "example.com" "manual_revoke"]
             (boot ticking_clock zero_draws 1 1) in
  (state <$> db w !! "example.com") = Some "revoked"
  /\ existsb (has_trigger "to_issued") FSM_TRANSITIONS = false
  /\ fst (transition_domain "example.com" "to_issued" w)
     = OK (JObj [("domain", JStr "example.com"); ("new_state", JStr "issued")])
  /\ (state <$> db (snd (transition_domain "example.com" "to_issued" w))
                  !! "example.com") = Some "issued".
Proof.
  vm_compute. repeat split; reflexivity.
Qed.

(** The machine's convenience methods are callable too: [is_issued] is
    answered 200, the state stays and the row's timestamps are
    rewritten; a name the model does not have is answered 400. *)
Lemma convenience_method_accepted :
  let w := snd (add_domain "example.com" (boot ticking_clock zero_draws 1 1)) in
  transition_domain "example.com" "is_issued" w
  = (OK (JObj [("domain", JStr "example.com"); ("new_state", JStr "unissued")]),
     mkWorld ticking_clock 4 zero_draws 0 [] (mkCertbotMock 1 1 ∅)
       {["example.com" :=
           mkCertDomain "example.com" true "unissued" None 0 3 (Some 2) None]}
       [])
  /\ fst (transition_domain "example.com" "may_validate_ok" w)
     = OK (JObj [("domain", JStr "example.com");
                 ("new_state", JStr "unissued")])
  /\ fst (transition_domain "example.com" "__str__" w)
     = OK (JObj [("domain", JStr "example.com");
                 ("new_state", JStr "unissued")])
  /\ fst (transition_domain "example.com" "bogus" w)
     = HTTPException 400
         "Transition failed: 'FSMWrapper' object has no attribute 'bogus'".
Proof. vm_compute. repeat split; reflexivity. Qed.

End Generic.

(** ** Revoked and invalid records *)

Section Terminal.





End Terminal.

(** * Further properties of the code *)

(** ** Unknown and duplicate domains *)

Section Lookup.

(** X1. Every operation that starts by looking the domain up answers
    "not found" for an unknown domain (404 on the endpoints, the error
    dictionary in [check_certificate_status], a silent return in the
    deferred work) and leaves the world exactly as it was. *)
Theorem unknown_domain_not_found (d event : string) (w : World) :
  db w !! d = None ->
  transition_domain d event w = (HTTPException 404 "Domain not found", w)
  /\ issue_certificate d w = (HTTPException 404 "Domain not found", w)
  /\ renew_certificate d w = (HTTPException 404 "Domain not found", w)
  /\ revoke_certificate d w = (HTTPException 404 "Domain not found", w)
  /\ get_certificate_status d w = (HTTPException 404 "Domain not found", w)
  /\ check_certificate_status d w
     = (JObj [("status", JStr "error"); ("message", JStr "Domain not found")], w)
  /\ perform_certificate_issuance d w = (tt, w)
  /\ perform_certificate_renewal d w = (tt, w)
  /\ perform_certificate_revocation d w = (tt, w).
Proof.
  intros Hd.
  unfold transition_domain, issue_certificate, renew_certificate,
    revoke_certificate, get_certificate_status, check_certificate_status,
    perform_certificate_issuance, perform_certificate_renewal,
    perform_certificate_revocation.
  unfold_effects. rewrite Hd. repeat split; reflexivity.
Qed.

Lemma unknown_domain_not_found_witness :
  let w := boot ticking_clock zero_draws 1 1 in
  snd (perform_certificate_revocation "example.com" w) = w.
Proof.
  intros w.
  destruct (unknown_domain_not_found "example.com" "manual_revoke" w)
    as (_ & _ & _ & _ & _ & _ & _ & _ & H).
  - reflexivity.
  - rewrite H. reflexivity.
Defined.

(** X2. After [add_domain] the domain has a row and a second [add_domain]
    is answered 400 without any effect.  A row that existed before is
    kept as it was; a new row is enabled, [unissued], without expiry,
    last check or error; no other row, nothing of the authority and no
    scheduled task is touched. *)
Theorem add_domain_then_duplicate (d : string) (w : World) :
  let w1 := snd (add_domain d w) in
  add_domain d w1 = (HTTPException 400 "Domain already exists", w1)
  /\ (forall e, db w !! d = Some e -> db w1 !! d = Some e)
  /\ (db w !! d = None ->
      db w1 !! d
      = Some (mkCertDomain d true "unissued" None (wallclock w (ticks w))
                (wallclock w (S (ticks w))) None None))
  /\ (forall d', d' <> d -> db w1 !! d' = db w !! d')
  /\ certbot w1 = certbot w
  /\ background_tasks w1 = background_tasks w.
Proof.
  intros w1. subst w1. unfold add_domain. unfold_effects.
  destruct (db w !! d) as [e|] eqn:He; cbn.
  - rewrite He. repeat split; try reflexivity; try discriminate; auto.
  - rewrite lookup_insert_eq. repeat split; try reflexivity; try discriminate.
    intros d' Hd'. apply lookup_insert_ne. congruence.
Qed.

End Lookup.

(** ** The generic endpoint, continued *)

Section GenericEffects.

(** X3. Whenever the generic endpoint answers with an error, whatever the
    event, nothing has changed: no row is written, the clock is not read. *)
Theorem transition_domain_error_no_effect (d event : string) (w : World)
    (code : nat) (detail : string) :
  fst (transition_domain d event w) = HTTPException code detail ->
  snd (transition_domain d event w) = w.
Proof.
  unfold transition_domain. unfold_effects.
  destruct (db w !! d) as [e|]; cbn; [|reflexivity].
  destruct (call _ (state e) event); cbn; [reflexivity | discriminate].
Qed.

Lemma transition_domain_error_no_effect_witness :
  let w := snd (add_domain "example.com" (boot ticking_clock zero_draws 1 1)) in
  snd (transition_domain "example.com" "validate_ok" w) = w.
Proof.
  intros w.
  apply (transition_domain_error_no_effect "example.com" "validate_ok" w 400
           ("Transition failed: " ++
            str (MachineError
                   "Can't trigger event validate_ok from state unissued!"))).
  reflexivity.
Defined.

(** X4. An accepted transition rewrites the state, [last_checked] and
    [updated_at] of the row (with two consecutive clock readings) and
    nothing else: expiry, last error, creation time and the enabled flag
    are kept, and the authority, the other rows and the task queue are
    untouched. *)
Theorem transition_domain_accepted (d event : string) (e : CertDomain)
    (body : json) (w : World) :
  db w !! d = Some e -> domain e = d ->
  fst (transition_domain d event w) = OK body ->
  let w' := snd (transition_domain d event w) in
  exists new_state,
    body = JObj [("domain", JStr d); ("new_state", JStr new_state)]
    /\ db w'
       = <[d := mkCertDomain d (enabled e) new_state (expires_at e)
                 (created_at e) (wallclock w (S (ticks w)))
                 (Some (wallclock w (ticks w))) (last_error e)]> (db w)
    /\ certbot w' = certbot w
    /\ background_tasks w' = background_tasks w
    /\ draws w' = draws w /\ slept w' = slept w.
Proof.
  intros He Hd. subst d. unfold transition_domain. unfold_effects. rewrite He.
  destruct (call _ (state e) event) as [err|new_state]; cbn; [discriminate|].
  intros [= <-]. exists new_state. repeat split; reflexivity.
Qed.

Lemma transition_domain_accepted_witness :
  let w := snd (add_domain "example.com" (boot ticking_clock zero_draws 1 1)) in
  exists new_state,
    db (snd (transition_domain "example.com" "request_cert" w))
    = <[ "example.com" :=
           mkCertDomain "example.com" true new_state None 0 3 (Some 2) None ]>
        (db w).
Proof.
  intros w.
  destruct (transition_domain_accepted "example.com" "request_cert"
              (mkCertDomain "example.com" true "unissued" None 0 1 None None)
              (JObj [("domain", JStr "example.com");
                     ("new_state", JStr "requesting")]) w)
    as (new_state & _ & Hdb & _).
  - reflexivity.
  - reflexivity.
  - reflexivity.
  - exists new_state. exact Hdb.
Defined.

(** Auto-transitions do not answer for an event that is not named
    [to_...]. *)
Lemma auto_transitions_skipped (event current : string)
    (states : list string) (rest : list Transition) :
  (forall s, String.eqb ("to_" ++ s) event = false) ->
  existsb (has_trigger event) (auto_transitions states ++ rest)
  = existsb (has_trigger event) rest
  /\ find (fun t => has_trigger event t && from_state current t)
       (auto_transitions states ++ rest)
     = find (fun t => has_trigger event t && from_state current t) rest.
Proof.
  intros Hev. unfold auto_transitions.
  induction states as [|s states [IH1 IH2]]; [split; reflexivity|].
  cbn [map app existsb find]. rewrite IH1, IH2.
  split; unfold has_trigger at 1; cbn [trigger]; rewrite Hev; reflexivity.
Qed.

(** X5. The wildcard rows: [manual_revoke] and [invalidate] are accepted
    on every existing row, whatever its state, and store [revoked] and
    [invalid]. *)
Theorem wildcard_triggers_from_any_state (d : string) (e : CertDomain)
    (w : World) :
  db w !! d = Some e -> domain e = d ->
  (fst (transition_domain d "manual_revoke" w)
   = OK (JObj [("domain", JStr d); ("new_state", JStr "revoked")])
   /\ (state <$> db (snd (transition_domain d "manual_revoke" w)) !! d)
      = Some "revoked")
  /\ (fst (transition_domain d "invalidate" w)
      = OK (JObj [("domain", JStr d); ("new_state", JStr "invalid")])
      /\ (state <$> db (snd (transition_domain d "invalidate" w)) !! d)
         = Some "invalid").
Proof.
  intros He Hd. unfold transition_domain. unfold_effects. rewrite He.
  unfold call, Machine. cbn [fsm_events].
  destruct (auto_transitions_skipped "manual_revoke" (state e)
              (machine_states FSM_STATES (state e)) FSM_TRANSITIONS) as [-> ->];
    [intros; reflexivity|].
  destruct (auto_transitions_skipped "invalidate" (state e)
              (machine_states FSM_STATES (state e)) FSM_TRANSITIONS) as [-> ->];
    [intros; reflexivity|].
  cbn. rewrite Hd, !lookup_insert_eq. repeat split; reflexivity.
Qed.

Lemma wildcard_triggers_from_any_state_witness :
  let w := snd (add_domain "example.com" (boot ticking_clock zero_draws 1 1)) in
  (state <$> db (snd (transition_domain "example.com" "invalidate" w))
             !! "example.com") = Some "invalid".
Proof.
  intros w.
  destruct (wildcard_triggers_from_any_state "example.com"
              (mkCertDomain "example.com" true "unissued" None 0 1 None None) w)
    as (_ & _ & H).
  - reflexivity.
  - reflexivity.
  - exact H.
Defined.

End GenericEffects.

(** ** Triggers: offered, accepted, described *)

Section Triggers.

Lemma auto_transition_found (target current : string) (states : list string)
    (rest : list Transition) :
  target ∈ states ->
  existsb (has_trigger ("to_" ++ target)) (auto_transitions states ++ rest)
  = true
  /\ find (fun t => has_trigger ("to_" ++ target) t && from_state current t)
       (auto_transitions states ++ rest)
     = Some (mkTransition ("to_" ++ target) wildcard_all target).
Proof.
  unfold auto_transitions.
  induction states as [|s states IH]; intros Hin.
  - apply list_elem_of_In in Hin. destruct Hin.
  - cbn [map app existsb find].
    unfold has_trigger at 1 3. cbn [trigger].
    destruct (String.eqb_spec ("to_" ++ s) ("to_" ++ target)) as [Heq|Hne].
    + cbv in Heq. injection Heq as Heq. subst s. split; reflexivity.
    + assert (Hin' : target ∈ states).
      { apply list_elem_of_In in Hin. apply list_elem_of_In.
        destruct Hin as [->|Hin]; [contradiction Hne; reflexivity | exact Hin]. }
      destruct (IH Hin') as [IH1 IH2]. cbn [orb andb]. auto.
Qed.

(** X6. Every declared state [s] can be forced through the generic
    endpoint: the event [to_s] is accepted on every existing row, whatever
    its state, and stores [s]. *)
Theorem auto_transition_from_any_state (d target : string) (e : CertDomain)
    (w : World) :
  db w !! d = Some e -> domain e = d -> target ∈ FSM_STATES ->
  fst (transition_domain d ("to_" ++ target) w)
  = OK (JObj [("domain", JStr d); ("new_state", JStr target)])
  /\ (state <$> db (snd (transition_domain d ("to_" ++ target) w)) !! d)
     = Some target.
Proof.
  intros He Hd Ht. unfold transition_domain. unfold_effects. rewrite He.
  unfold call, Machine. cbn [fsm_events].
  assert (Hin : target ∈ machine_states FSM_STATES (state e)).
  { unfold machine_states. destruct (decide _); [exact Ht|].
    apply elem_of_app. left. exact Ht. }
  destruct (auto_transition_found target (state e) _ FSM_TRANSITIONS Hin)
    as [-> ->].
  cbn. rewrite Hd, lookup_insert_eq. split; reflexivity.
Qed.

Lemma auto_transition_from_any_state_witness :
  let w := snd (add_domain "example.com" (boot ticking_clock zero_draws 1 1)) in
  (state <$> db (snd (transition_domain "example.com" ("to_" ++ "renewed") w))
             !! "example.com") = Some "renewed".
Proof.
  intros w.
  destruct (auto_transition_from_any_state "example.com" "renewed"
              (mkCertDomain "example.com" true "unissued" None 0 1 None None) w)
    as [_ H].
  - reflexivity.
  - reflexivity.
  - apply list_elem_of_In. cbn. tauto.
  - exact H.
Defined.




Lemma lower_keeps_no_underscore (c : ascii) :
  c <> "_"%char -> lower c <> "_"%char /\ upper c <> "_"%char.
Proof.
  destruct c as [[] [] [] [] [] [] [] []]; vm_compute;
    intros H; split; first [discriminate | exact H].
Qed.

Lemma capitalize_replace_no_underscore (s : string) :
  ~ In "_"%char (list_ascii_of_string (capitalize (replace_underscore s))).
Proof.
  assert (Hrep : forall s, ~ In "_"%char
                   (list_ascii_of_string (replace_underscore s))).
  { intros s'. induction s' as [|c s' IH]; cbn; [tauto|].
    intros [H|H]; [|exact (IH H)].
    destruct (Ascii.eqb_spec c "_"); [discriminate H | congruence]. }
  assert (Hlow : forall s, ~ In "_"%char (list_ascii_of_string s) ->
                 ~ In "_"%char (list_ascii_of_string (lowercase s))).
  { intros s'. induction s' as [|c s' IH]; cbn; [tauto|].
    intros Hno [H|H].
    - destruct (lower_keeps_no_underscore c) as [Hl _]; [tauto | exact (Hl H)].
    - apply IH; tauto. }
  specialize (Hrep s). destruct (replace_underscore s) as [|c s']; cbn in *;
    [tauto|].
  intros [H|H].
  - destruct (lower_keeps_no_underscore c) as [_ Hu]; [tauto | exact (Hu H)].
  - apply (Hlow s'); tauto.
Qed.

(** X8. A description never contains an underscore, for any trigger name:
    the dictionary's texts have none and the fallback replaces them all. *)
Theorem description_has_no_underscore (trig : string) :
  ~ In "_"%char (list_ascii_of_string (get_transition_description trig)).
Proof.
  unfold get_transition_description.
  destruct (find _ descriptions) as [kv|] eqn:Hfind.
  - apply find_some in Hfind as [Hin _]. cbn in Hin.
    repeat (destruct Hin as [<- | Hin];
            [vm_compute; intros H;
             repeat (destruct H as [H|H]; [discriminate H|]); exact H|]).
    destruct Hin.
  - apply capitalize_replace_no_underscore.
Qed.

(** X9. [list_domains] answers one entry per stored row, each showing the
    row's domain and state, and changes nothing. *)
Theorem list_domains_lists_rows (w : World) :
  exists l, list_domains w = (OK (JList l), w)
    /\ length l = size (db w)
    /\ (forall j, In j l <->
          exists d e, db w !! d = Some e /\ j = domain_json e).
Proof.
  unfold list_domains. eexists. split; [reflexivity|]. split.
  - rewrite length_map. apply length_map_to_list.
  - intros j. rewrite in_map_iff. split.
    + intros ([d e] & <- & Hin). exists d, e. split; [|reflexivity].
      apply elem_of_map_to_list. apply list_elem_of_In. exact Hin.
    + intros (d & e & He & ->). exists (d, e). split; [reflexivity|].
      apply list_elem_of_In. apply elem_of_map_to_list. exact He.
Qed.

End Triggers.

(** ** The authority, continued *)

Section AuthorityEffects.

Import CertbotMockM.

Lemma float_lt_false (x y : Q) : float_lt x y = false <-> (y <= x)%Q.
Proof.
  unfold float_lt. destruct (Qlt_le_dec x y) as [H|H]; split; intros; auto.
  - discriminate.
  - exfalso. apply (Qlt_not_le _ _ H H0).
Qed.

(** X10. [issue_certificate] always sleeps for the configured delay and
    takes one draw.  It succeeds exactly when the draw is below the success
    rate.  A success replaces the domain's certificate by a fresh one
    (status [issued], no renewal or revocation time), expiring 90 days
    after the first of two clock readings; a failure reads no clock and
    leaves the authority as it was.  The certificates of other domains,
    the database and the task queue are never touched. *)
Theorem issue_certificate_effects (d : string) (w : World) :
  let result := fst (issue_certificate d w) in
  let w' := snd (issue_certificate d w) in
  slept w' = delay (certbot w) :: slept w
  /\ draws w' = S (draws w)
  /\ db w' = db w /\ background_tasks w' = background_tasks w
  /\ (forall d', d' <> d -> certs (certbot w') !! d' = certs (certbot w) !! d')
  /\ (fst (fst result) = true
      <-> (entropy w (draws w) < success_rate (certbot w))%Q)
  /\ (fst (fst result) = true ->
      result = (true, None, Some (wallclock w (ticks w) + timedelta 90))
      /\ ticks w' = S (S (ticks w))
      /\ certs (certbot w') !! d
         = Some (mkCert "issued" (wallclock w (ticks w) + timedelta 90)
                   (wallclock w (S (ticks w))) None None))
  /\ (fst (fst result) = false ->
      result = (false, Some ("Mock: Failed to complete challenge for " ++ d),
                None)
      /\ ticks w' = ticks w /\ certbot w' = certbot w).
Proof.
  intros result w'. subst result w'. unfold issue_certificate. unfold_effects.
  cbn.
  destruct (float_lt (entropy w (draws w)) (success_rate (certbot w)))
    eqn:Hlt; cbn.
  - apply float_lt_true in Hlt.
    repeat split; try reflexivity; auto; try discriminate;
      try (intros d' Hd'; apply lookup_insert_ne; congruence);
      try apply lookup_insert_eq.
  - apply float_lt_false in Hlt.
    repeat split; try reflexivity; auto; try discriminate;
      try (intros Hsucc; exfalso; apply (Qlt_not_le _ _ Hsucc Hlt));
      try (destruct (certbot w); reflexivity).
Qed.



(** X12. [check_certificate] only reads the clock (at most twice): the
    authority, the random source, the sleep log, the database and the task
    queue are as before.  Its status is one of five words; an expiry is
    returned exactly when the status is neither [not_found] nor [revoked],
    and then it is the stored one. *)
Theorem check_certificate_read_only (d : string) (w : World) :
  let result := fst (check_certificate d w) in
  let w' := snd (check_certificate d w) in
  certbot w' = certbot w /\ db w' = db w /\ draws w' = draws w
  /\ slept w' = slept w /\ background_tasks w' = background_tasks w
  /\ (ticks w <= ticks w' <= ticks w + 2)%nat
  /\ snd (fst result) ∈ ["not_found"; "revoked"; "expired"; "expiring_soon";
                         "valid"]
  /\ (snd result = None
      <-> snd (fst result) = "not_found" \/ snd (fst result) = "revoked")
  /\ (forall x, snd result = Some x ->
        exists c, certs (certbot w) !! d = Some c /\ cert_expires_at c = x).
Proof.
  intros result w'. subst result w'. unfold check_certificate. unfold_effects.
  cbn.
  destruct (certs (certbot w) !! d) as [c|]; cbn.
  2:{ repeat split; try reflexivity; try lia; try declared; auto;
      discriminate. }
  destruct (String.eqb (status c) "revoked"); cbn.
  { repeat split; try reflexivity; try lia; try declared; auto; discriminate. }
  destruct (cert_expires_at c <? wallclock w (ticks w)); cbn.
  { repeat split; try reflexivity; try lia; try declared;
      try discriminate; try (intros [H|H]; discriminate H).
    intros x [= <-]. eauto. }
  destruct (cert_expires_at c <? wallclock w (S (ticks w)) + timedelta 30); cbn;
    (repeat split; try reflexivity; try lia; try declared;
     try discriminate; try (intros [H|H]; discriminate H);
     intros x [= <-]; eauto).
Qed.

End AuthorityEffects.

(** ** Deferred work, continued *)

Section Deferred.

(** X13. When the draw is not below the success rate, the deferred
    issuance leaves the record in state [failed] with the authority's
    message as [last_error]; the stored expiry and the authority are as
    before, and the Issue request is accepted again from there. *)
Theorem issuance_failure_then_retry (d : string) (e : CertDomain) (w : World) :
  db w !! d = Some e -> domain e = d ->
  (success_rate (certbot w) <= entropy w (draws w))%Q ->
  let w' := snd (perform_certificate_issuance d w) in
  exists e', db w' !! d = Some e'
    /\ state e' = "failed"
    /\ last_error e' = Some ("Mock: Failed to complete challenge for " ++ d)
    /\ expires_at e' = expires_at e
    /\ certbot w' = certbot w
    /\ fst (issue_certificate d w') = OK (started "issuance" d "failed").
Proof.
  intros He Hd Hdraw w'. subst w'. apply float_lt_false in Hdraw.
  unfold perform_certificate_issuance, CertbotMockM.issue_certificate,
    issue_certificate.
  unfold_effects. cbn. rewrite He. cbn. rewrite Hdraw. cbn. rewrite Hd.
  rewrite !lookup_insert_eq. cbn.
  eexists. repeat split; try reflexivity.
Qed.

Lemma issuance_failure_then_retry_witness :
  let w := snd (add_domain "example.com" (boot ticking_clock zero_draws 0 1)) in
  exists e', db (snd (perform_certificate_issuance "example.com" w))
               !! "example.com" = Some e'
             /\ state e' = "failed".
Proof.
  intros w.
  destruct (issuance_failure_then_retry "example.com"
              (mkCertDomain "example.com" true "unissued" None 0 1 None None) w)
    as (e' & Hlook & Hst & _).
  - reflexivity.
  - reflexivity.
  - vm_compute. discriminate.
  - exists e'. split; [exact Hlook | exact Hst].
Defined.

(** X14. Deferred renewal and revocation of a record whose domain the
    authority has no certificate for (the record was made [issued] through
    the generic endpoint) end in state [failed] with "No certificate
    found" as [last_error]; nothing is slept or drawn and the authority
    and the stored expiry are as before. *)
Theorem deferred_work_without_certificate (d : string) (e : CertDomain)
    (w : World) :
  db w !! d = Some e -> domain e = d -> certs (certbot w) !! d = None ->
  (let w' := snd (perform_certificate_renewal d w) in
   exists e', db w' !! d = Some e'
     /\ state e' = "failed"
     /\ last_error e' = Some ("Mock: No certificate found for " ++ d)
     /\ expires_at e' = expires_at e
     /\ slept w' = slept w /\ draws w' = draws w /\ certbot w' = certbot w)
  /\ (let w' := snd (perform_certificate_revocation d w) in
      exists e', db w' !! d = Some e'
        /\ state e' = "failed"
        /\ last_error e' = Some ("Mock: No certificate found for " ++ d)
        /\ expires_at e' = expires_at e
        /\ slept w' = slept w /\ draws w' = draws w /\ certbot w' = certbot w).
Proof.
  intros He Hd Hc.
  unfold perform_certificate_renewal, perform_certificate_revocation,
    CertbotMockM.renew_certificate, CertbotMockM.revoke_certificate.
  unfold_effects. cbn. rewrite He. cbn. rewrite Hc. cbn. rewrite Hd.
  rewrite !lookup_insert_eq.
  split; eexists; repeat split; reflexivity.
Qed.

Lemma deferred_work_without_certificate_witness :
  let w := App.run [AddDomain "example.com";
                    TransitionDomain "example.com" "to_issued"]
             (boot ticking_clock zero_draws 1 1) in
  exists e', db (snd (perform_certificate_renewal "example.com" w))
               !! "example.com" = Some e'
             /\ state e' = "failed".
Proof.
  intros w.
  destruct (deferred_work_without_certificate "example.com"
              (mkCertDomain "example.com" true "issued" None 0 3 (Some 2) None)
              w) as ((e' & Hlook & Hst & _) & _).
  - reflexivity.
  - reflexivity.
  - reflexivity.
  - exists e'. split; [exact Hlook | exact Hst].
Defined.

(** X15. A successful deferred revocation stores [revoked] and clears
    [last_error], keeping the stored expiry; the authority's certificate
    keeps its expiry and gets status [revoked].  From then on
    [check_certificate] answers [revoked] whatever the clock reads, and
    Check leaves the record in state [revoked]. *)
Theorem revocation_success (d : string) (e : CertDomain) (c : Cert)
    (w : World) :
  db w !! d = Some e -> domain e = d ->
  certs (certbot w) !! d = Some c ->
  (entropy w (draws w) < success_rate (certbot w))%Q ->
  let w' := snd (perform_certificate_revocation d w) in
  exists e', db w' !! d = Some e'
    /\ state e' = "revoked" /\ last_error e' = None
    /\ expires_at e' = expires_at e
    /\ certs (certbot w') !! d
       = Some (mkCert "revoked" (cert_expires_at c) (issued_at c)
                 (renewed_at c) (Some (wallclock w (ticks w))))
    /\ fst (CertbotMockM.check_certificate d w') = (false, "revoked", None)
    /\ (state <$> db (snd (check_certificate_status d w')) !! d)
       = Some "revoked".
Proof.
  intros He Hd Hc Hdraw w'. apply float_lt_true in Hdraw.
  assert (Hw' : exists e',
    db w' !! d = Some e' /\ domain e' = d
    /\ state e' = "revoked" /\ last_error e' = None
    /\ expires_at e' = expires_at e
    /\ certs (certbot w') !! d
       = Some (mkCert "revoked" (cert_expires_at c) (issued_at c)
                 (renewed_at c) (Some (wallclock w (ticks w))))).
  { subst w'.
    unfold perform_certificate_revocation, CertbotMockM.revoke_certificate.
    unfold_effects. cbn. rewrite He. cbn. rewrite Hc. cbn. rewrite Hdraw. cbn.
    rewrite Hd, !lookup_insert_eq. eexists. repeat split; try reflexivity.
    exact Hd. }
  destruct Hw' as (e' & Hlook & Hd' & Hst & Herr & Hexp & Hcert).
  assert (Hcheck : fst (CertbotMockM.check_certificate d w')
                   = (false, "revoked", None)).
  { unfold CertbotMockM.check_certificate. unfold_effects. cbn.
    rewrite Hcert. reflexivity. }
  exists e'. repeat split; try assumption.
  destruct (check_certificate_status_effect d e' w' Hlook Hd')
    as (e'' & Hlook'' & _ & Hkeep & _).
  rewrite Hlook''. cbn. rewrite Hkeep; [congruence|].
  rewrite Hcheck. cbn. intros [Hx _]. discriminate Hx.
Qed.

Lemma revocation_success_witness :
  let w := App.run [AddDomain "example.com"; IssueCertificate "example.com";
                    RunBackground]
             (boot ticking_clock zero_draws 1 1) in
  (state <$> db (snd (check_certificate_status "example.com"
                        (snd (perform_certificate_revocation "example.com" w))))
             !! "example.com") = Some "revoked".
Proof.
  intros w.
  destruct (revocation_success "example.com"
              (mkCertDomain "example.com" true "issued" (Some (3 + timedelta 90))
                 0 6 (Some 5) None)
              (mkCert "issued" (3 + timedelta 90) 4 None None) w)
    as (e' & _ & _ & _ & _ & _ & _ & H).
  - reflexivity.
  - reflexivity.
  - reflexivity.
  - reflexivity.
  - exact H.
Defined.

(** X16. When the draw fails, the deferred revocation moves the record to
    [failed] although the authority's certificate is untouched; Renew and
    Revoke are then refused with 400 and only Issue is accepted. *)
Theorem revocation_failure_blocks_retry (d : string) (e : CertDomain)
    (c : Cert) (w : World) :
  db w !! d = Some e -> domain e = d ->
  certs (certbot w) !! d = Some c ->
  (success_rate (certbot w) <= entropy w (draws w))%Q ->
  let w' := snd (perform_certificate_revocation d w) in
  exists e', db w' !! d = Some e'
    /\ state e' = "failed"
    /\ last_error e' = Some ("Mock: Failed to revoke certificate for " ++ d)
    /\ certbot w' = certbot w
    /\ fst (revoke_certificate d w')
       = HTTPException 400
           "Cannot revoke certificate for domain in state: failed"
    /\ fst (renew_certificate d w')
       = HTTPException 400
           "Cannot renew certificate for domain in state: failed"
    /\ fst (issue_certificate d w') = OK (started "issuance" d "failed").
Proof.
  intros He Hd Hc Hdraw w'. subst w'. apply float_lt_false in Hdraw.
  unfold perform_certificate_revocation, CertbotMockM.revoke_certificate,
    revoke_certificate, renew_certificate, issue_certificate.
  unfold_effects. cbn. rewrite He. cbn. rewrite Hc. cbn. rewrite Hdraw. cbn.
  rewrite Hd, !lookup_insert_eq. cbn.
  eexists. repeat split; reflexivity.
Qed.

Lemma revocation_failure_blocks_retry_witness :
  let w := mkWorld ticking_clock 0 zero_draws 0 []
             (mkCertbotMock 0 1
                {["example.com" := mkCert "issued" (timedelta 90) 0 None None]})
             {["example.com" :=
                 mkCertDomain "example.com" true "issued" (Some (timedelta 90))
                   0 0 None None]} [] in
  fst (revoke_certificate "example.com"
         (snd (perform_certificate_revocation "example.com" w)))
  = HTTPException 400 "Cannot revoke certificate for domain in state: failed".
Proof.
  intros w.
  destruct (revocation_failure_blocks_retry "example.com"
              (mkCertDomain "example.com" true "issued" (Some (timedelta 90))
                 0 0 None None)
              (mkCert "issued" (timedelta 90) 0 None None) w)
    as (e' & _ & _ & _ & _ & H & _).
  - reflexivity.
  - reflexivity.
  - reflexivity.
  - vm_compute. discriminate.
  - exact H.
Defined.

End Deferred.

(** ** Scheduling and what is never lost *)

Section Scheduling.

(** X17. An accepted Issue, Renew or Revoke request does nothing but
    append its task to the queue: it reports the record's state as
    [previous_state], and the row, the authority, the clock and the random
    source are left alone (the row is only written when the task runs). *)
Theorem accepted_request_only_schedules (d : string) (body : json)
    (w : World) :
  let scheduled t :=
    mkWorld (wallclock w) (ticks w) (entropy w) (draws w) (slept w)
      (certbot w) (db w) (background_tasks w ++ [t]) in
  (fst (issue_certificate d w) = OK body ->
   snd (issue_certificate d w) = scheduled (perform_issuance_task d)
   /\ exists e, db w !! d = Some e /\ body = started "issuance" d (state e))
  /\ (fst (renew_certificate d w) = OK body ->
      snd (renew_certificate d w) = scheduled (perform_renewal_task d)
      /\ exists e, db w !! d = Some e /\ body = started "renewal" d (state e))
  /\ (fst (revoke_certificate d w) = OK body ->
      snd (revoke_certificate d w) = scheduled (perform_revocation_task d)
      /\ exists e, db w !! d = Some e
                   /\ body = started "revocation" d (state e)).
Proof.
  intros scheduled. subst scheduled.
  unfold issue_certificate, renew_certificate, revoke_certificate.
  unfold_effects. cbn.
  destruct (db w !! d) as [e|]; cbn.
  - repeat split;
      destruct (decide _); cbn in *; try discriminate; try reflexivity;
      match goal with
      | H : OK _ = OK _ |- _ => injection H as <-; eauto
      end.
  - repeat split; discriminate.
Qed.

Lemma authority_keeps_tasks (d : string) (w : World) :
  background_tasks (snd (CertbotMockM.issue_certificate d w))
  = background_tasks w
  /\ background_tasks (snd (CertbotMockM.renew_certificate d w))
     = background_tasks w
  /\ background_tasks (snd (CertbotMockM.revoke_certificate d w))
     = background_tasks w.
Proof.
  unfold CertbotMockM.issue_certificate, CertbotMockM.renew_certificate,
    CertbotMockM.revoke_certificate.
  unfold_effects. cbn.
  repeat split;
    repeat match goal with
           | |- context [match ?x with _ => _ end] => destruct x; cbn
           end; reflexivity.
Qed.

Lemma run_task_keeps_tasks (t : Task) (w : World) :
  background_tasks (snd (run_task t w)) = background_tasks w.
Proof.
  destruct t as [d|d|d]; cbn;
    unfold perform_certificate_issuance, perform_certificate_renewal,
      perform_certificate_revocation; unfold_effects; cbn;
    destruct (db w !! d) as [e|]; cbn; try reflexivity.
  - match goal with
    | |- context [CertbotMockM.issue_certificate d ?w0] =>
      pose proof (proj1 (authority_keeps_tasks d w0)) as Ht;
      destruct (CertbotMockM.issue_certificate d w0) as [[[ok msg] expiry] w1]
    end.
    cbn in *. exact Ht.
  - match goal with
    | |- context [CertbotMockM.renew_certificate d ?w0] =>
      pose proof (proj1 (proj2 (authority_keeps_tasks d w0))) as Ht;
      destruct (CertbotMockM.renew_certificate d w0)
        as [[err | [[ok msg] expiry]] w1]
    end;
      cbn in *; exact Ht.
  - match goal with
    | |- context [CertbotMockM.revoke_certificate d ?w0] =>
      pose proof (proj2 (proj2 (authority_keeps_tasks d w0))) as Ht;
      destruct (CertbotMockM.revoke_certificate d w0) as [[ok msg] w1]
    end.
    cbn in *. exact Ht.
Qed.

(** X18. Running deferred work removes exactly the oldest task from the
    queue and never schedules new work; with an empty queue it changes
    nothing at all. *)
Theorem run_background_pops_oldest (w : World) :
  background_tasks (snd (handle RunBackground w)) = tail (background_tasks w)
  /\ (background_tasks w = [] -> handle RunBackground w = (OK JNull, w)).
Proof.
  cbn. unfold_effects.
  destruct (background_tasks w) as [|t ts] eqn:Hts; cbn.
  - split; [exact Hts | reflexivity].
  - split; [|discriminate].
    pose proof (run_task_keeps_tasks t
      (mkWorld (wallclock w) (ticks w) (entropy w) (draws w) (slept w)
         (certbot w) (db w) ts)) as Hrun.
    destruct (run_task t _) as [[] w1]. exact Hrun.
Qed.

End Scheduling.

(** ** Rows and certificates are never lost *)

Section Persistence.

Lemma insert_same_row (m : gmap string CertDomain) (d k : string)
    (e x : CertDomain) :
  (exists e1, m !! d = Some e1 /\ same_row e e1) ->
  (k = d -> same_row e x) ->
  exists e', <[k := x]> m !! d = Some e' /\ same_row e e'.
Proof.
  intros Hm Hx. destruct (decide (k = d)) as [Heq|Hne].
  - exists x. rewrite Heq, lookup_insert_eq. auto.
  - rewrite lookup_insert_ne by exact Hne. exact Hm.
Qed.

(** Rows survive every step, with their identifying fields. *)
Lemma handle_same_row (r : Request) (d : string) (e : CertDomain)
    (w : World) :
  keyed_by_domain w -> db w !! d = Some e ->
  exists e', db (snd (handle r w)) !! d = Some e' /\ same_row e e'.
Proof.
  intros Hkey He.
  assert (Hbase : exists e1, db w !! d = Some e1 /\ same_row e e1).
  { exists e. unfold same_row. auto. }
  assert (Hrow : forall d' x, db w !! d' = Some x -> domain x = d ->
                 same_row e x).
  { intros d' x Hx Hdx. pose proof (Hkey d' x Hx) as Hk. cbn in Hk.
    assert (x = e) by congruence. subst x. unfold same_row. auto. }
  destruct r as [d'| |d' event|d'|d'|d'|d'|]; cbn.
  - unfold add_domain. unfold_effects. cbn.
    destruct (db w !! d') as [x|] eqn:Hx; cbn; [exact Hbase|].
    apply insert_same_row; [exact Hbase|]. cbn. intros <-. congruence.
  - exact Hbase.
  - unfold transition_domain. unfold_effects. cbn.
    destruct (db w !! d') as [x|] eqn:Hx; cbn; [|exact Hbase].
    destruct (call _ (state x) event); cbn; [exact Hbase|].
    apply insert_same_row; [exact Hbase|]. exact (Hrow d' x Hx).
  - unfold issue_certificate. unfold_effects. cbn.
    destruct (db w !! d'); cbn; [|exact Hbase].
    destruct (decide _); exact Hbase.
  - unfold renew_certificate. unfold_effects. cbn.
    destruct (db w !! d'); cbn; [|exact Hbase].
    destruct (decide _); exact Hbase.
  - unfold revoke_certificate. unfold_effects. cbn.
    destruct (db w !! d'); cbn; [|exact Hbase].
    destruct (decide _); exact Hbase.
  - unfold get_certificate_status, check_certificate_status.
    unfold_effects. cbn.
    destruct (db w !! d') as [x|] eqn:Hx; cbn; [|exact Hbase].
    rewrite Hx.
    pose proof (proj2 (proj2 (proj2 (authority_keeps_db d' w)))) as Hdb.
    destruct (CertbotMockM.check_certificate d' w) as [[[valid st] expiry] w1].
    cbn in *.
    destruct (String.eqb st "expired" && negb (String.eqb (state x) "expired"));
      cbn; destruct expiry; cbn; rewrite Hdb;
      (apply insert_same_row; [exact Hbase | exact (Hrow d' x Hx)]).
  - unfold_effects. cbn.
    destruct (background_tasks w) as [|t ts]; cbn; [exact Hbase|].
    destruct t as [d'|d'|d']; cbn;
      unfold perform_certificate_issuance, perform_certificate_renewal,
        perform_certificate_revocation; unfold_effects; cbn;
      destruct (db w !! d') as [x|] eqn:Hx; cbn; try exact Hbase.
    + match goal with
      | |- context [CertbotMockM.issue_certificate d' ?w0] =>
        pose proof (proj1 (authority_keeps_db d' w0)) as Hdb;
        destruct (CertbotMockM.issue_certificate d' w0)
          as [[[ok msg] expiry] w1]
      end.
      cbn in *. rewrite Hdb.
      apply insert_same_row;
        [| destruct ok; exact (Hrow d' x Hx)].
      apply insert_same_row; [exact Hbase | exact (Hrow d' x Hx)].
    + match goal with
      | |- context [CertbotMockM.renew_certificate d' ?w0] =>
        pose proof (proj1 (proj2 (authority_keeps_db d' w0))) as Hdb;
        destruct (CertbotMockM.renew_certificate d' w0)
          as [[err | [[ok msg] expiry]] w1]
      end;
        cbn in *; rewrite Hdb.
      * apply insert_same_row; [exact Hbase | exact (Hrow d' x Hx)].
      * apply insert_same_row;
          [| destruct ok; exact (Hrow d' x Hx)].
        apply insert_same_row; [exact Hbase | exact (Hrow d' x Hx)].
    + match goal with
      | |- context [CertbotMockM.revoke_certificate d' ?w0] =>
        pose proof (proj1 (proj2 (proj2 (authority_keeps_db d' w0)))) as Hdb;
        destruct (CertbotMockM.revoke_certificate d' w0) as [[ok msg] w1]
      end.
      cbn in *. rewrite Hdb.
      apply insert_same_row;
        [exact Hbase | destruct ok; exact (Hrow d' x Hx)].
Qed.

(** X19. No request and no deferred work deletes a row or changes its
    domain, its [enabled] flag or its creation time. *)
Theorem rows_never_deleted (r : Request) (d : string) (e : CertDomain)
    (w : World) :
  keyed_by_domain w -> db w !! d = Some e ->
  exists e', db (snd (handle r w)) !! d = Some e' /\ same_row e e'.
Proof. exact (handle_same_row r d e w). Qed.

Lemma rows_never_deleted_witness :
  let w := App.run [AddDomain "example.com"; IssueCertificate "example.com"]
             (boot ticking_clock zero_draws 1 1) in
  exists e', db (snd (handle RunBackground w)) !! "example.com" = Some e'
             /\ created_at e' = 0.
Proof.
  intros w.
  destruct (rows_never_deleted RunBackground "example.com"
              (mkCertDomain "example.com" true "unissued" None 0 1 None None) w)
    as (e' & Hlook & _ & _ & Hcreated).
  - unfold keyed_by_domain.
    match goal with
    | |- ?P => apply (@bool_decide_unpack P _)
    end.
    vm_compute. exact I.
  - reflexivity.
  - exists e'. split; [exact Hlook | exact Hcreated].
Defined.

End Persistence.

(** ** The authority across requests *)

Section AuthorityAcrossRequests.

Lemma authority_preserves (d0 d : string) (w : World) :
  is_Some (certs (certbot w) !! d) ->
  forall cb,
    cb = certbot (snd (CertbotMockM.issue_certificate d0 w))
    \/ cb = certbot (snd (CertbotMockM.renew_certificate d0 w))
    \/ cb = certbot (snd (CertbotMockM.revoke_certificate d0 w))
    \/ cb = certbot (snd (CertbotMockM.check_certificate d0 w)) ->
    is_Some (certs cb !! d)
    /\ success_rate cb = success_rate (certbot w)
    /\ delay cb = delay (certbot w).
Proof.
  intros Hd cb.
  unfold CertbotMockM.issue_certificate, CertbotMockM.renew_certificate,
    CertbotMockM.revoke_certificate, CertbotMockM.check_certificate.
  unfold_effects. cbn.
  intros [-> | [-> | [-> | ->]]];
    repeat match goal with
           | |- context [match ?x with _ => _ end] => destruct x; cbn
           end;
    (split; [|split; reflexivity]); try exact Hd;
    (destruct (decide (d0 = d)) as [->|Hne];
     [rewrite lookup_insert_eq; eauto
     | rewrite lookup_insert_ne by exact Hne; exact Hd]).
Qed.

(** X20. No request and no deferred work removes a certificate from the
    authority or changes its success rate or delay: a domain the
    authority holds a certificate for keeps having one. *)
Theorem authority_never_forgets (r : Request) (d : string) (w : World) :
  is_Some (certs (certbot w) !! d) ->
  let cb := certbot (snd (handle r w)) in
  is_Some (certs cb !! d)
  /\ success_rate cb = success_rate (certbot w)
  /\ delay cb = delay (certbot w).
Proof.
  intros Hd cb. subst cb.
  assert (Hsame : is_Some (certs (certbot w) !! d)
                  /\ success_rate (certbot w) = success_rate (certbot w)
                  /\ delay (certbot w) = delay (certbot w)) by auto.
  destruct r as [d'| |d' event|d'|d'|d'|d'|]; cbn.
  - unfold add_domain. unfold_effects. cbn.
    destruct (db w !! d'); cbn; exact Hsame.
  - exact Hsame.
  - unfold transition_domain. unfold_effects. cbn.
    destruct (db w !! d') as [x|]; cbn; [|exact Hsame].
    destruct (call _ (state x) event); cbn; exact Hsame.
  - unfold issue_certificate. unfold_effects. cbn.
    destruct (db w !! d'); cbn; [|exact Hsame].
    destruct (decide _); exact Hsame.
  - unfold renew_certificate. unfold_effects. cbn.
    destruct (db w !! d'); cbn; [|exact Hsame].
    destruct (decide _); exact Hsame.
  - unfold revoke_certificate. unfold_effects. cbn.
    destruct (db w !! d'); cbn; [|exact Hsame].
    destruct (decide _); exact Hsame.
  - unfold get_certificate_status, check_certificate_status.
    unfold_effects. cbn.
    destruct (db w !! d') as [x|] eqn:Hx; cbn; [|exact Hsame].
    rewrite Hx.
    pose proof (authority_preserves d' d w Hd _
                  (or_intror (or_intror (or_intror eq_refl)))) as Hcb.
    destruct (CertbotMockM.check_certificate d' w) as [[[valid st] expiry] w1].
    cbn in *.
    destruct (String.eqb st "expired" && negb (String.eqb (state x) "expired"));
      cbn; destruct expiry; cbn; exact Hcb.
  - unfold_effects. cbn.
    destruct (background_tasks w) as [|t ts]; cbn; [exact Hsame|].
    destruct t as [d'|d'|d']; cbn;
      unfold perform_certificate_issuance, perform_certificate_renewal,
        perform_certificate_revocation; unfold_effects; cbn;
      destruct (db w !! d') as [x|] eqn:Hx; cbn; try exact Hsame.
    + match goal with
      | |- context [CertbotMockM.issue_certificate d' ?w0] =>
        pose proof (authority_preserves d' d w0 Hd _ (or_introl eq_refl))
          as Hcb;
        destruct (CertbotMockM.issue_certificate d' w0)
          as [[[ok msg] expiry] w1]
      end.
      cbn in *. exact Hcb.
    + match goal with
      | |- context [CertbotMockM.renew_certificate d' ?w0] =>
        pose proof (authority_preserves d' d w0 Hd _
                      (or_intror (or_introl eq_refl))) as Hcb;
        destruct (CertbotMockM.renew_certificate d' w0)
          as [[err | [[ok msg] expiry]] w1]
      end;
        cbn in *; exact Hcb.
    + match goal with
      | |- context [CertbotMockM.revoke_certificate d' ?w0] =>
        pose proof (authority_preserves d' d w0 Hd _
                      (or_intror (or_intror (or_introl eq_refl)))) as Hcb;
        destruct (CertbotMockM.revoke_certificate d' w0) as [[ok msg] w1]
      end.
      cbn in *. exact Hcb.
Qed.

Lemma authority_never_forgets_witness :
  let w := App.run [AddDomain "example.com"; IssueCertificate "example.com";
                    RunBackground; RevokeCertificate "example.com"]
             (boot ticking_clock zero_draws 1 1) in
  is_Some (certs (certbot (snd (handle RunBackground w))) !! "example.com").
Proof.
  intros w.
  destruct (authority_never_forgets RunBackground "example.com" w) as [H _].
  - exists (mkCert "issued" (3 + timedelta 90) 4 None None).
    vm_compute. reflexivity.
  - exact H.
Defined.

(** X21. After Check on an existing row, the payload's [state] is the
    state now stored, and its validity flag, status and expiry are the
    authority's answer.  When the authority holds a certificate that is
    not revoked, the stored expiry is that certificate's expiry. *)
Theorem status_payload_matches_store (d : string) (e : CertDomain)
    (w : World) :
  db w !! d = Some e -> domain e = d ->
  let answer := fst (CertbotMockM.check_certificate d w) in
  exists e', db (snd (get_certificate_status d w)) !! d = Some e'
    /\ fst (get_certificate_status d w)
       = OK (JObj [("domain", JStr d);
                   ("is_valid", JBool (fst (fst answer)));
                   ("status", JStr (snd (fst answer)));
                   ("expires_at", opt_time (snd answer));
                   ("state", JStr (state e'))])
    /\ (forall c, certs (certbot w) !! d = Some c -> status c <> "revoked" ->
        expires_at e' = Some (cert_expires_at c)).
Proof.
  intros He Hd answer. subst answer.
  assert (Hexp : forall c, certs (certbot w) !! d = Some c ->
                 status c <> "revoked" ->
                 snd (fst (CertbotMockM.check_certificate d w))
                 = Some (cert_expires_at c)).
  { intros c Hc Hr. unfold CertbotMockM.check_certificate. unfold_effects.
    cbn. rewrite Hc. apply String.eqb_neq in Hr. rewrite Hr. cbn.
    destruct (_ <? _); cbn; [reflexivity|]. destruct (_ <? _); reflexivity. }
  unfold get_certificate_status, check_certificate_status.
  unfold_effects. cbn. rewrite He. cbn. rewrite He.
  destruct (CertbotMockM.check_certificate d w) as [[[valid st] expiry] w1].
  cbn in *.
  destruct (String.eqb st "expired" && negb (String.eqb (state e) "expired"));
    cbn; destruct expiry as [x|]; cbn; rewrite Hd, lookup_insert_eq;
    eexists; (split; [reflexivity|]); (split; [reflexivity|]);
    intros c Hc Hr; specialize (Hexp c Hc Hr); cbn; congruence.
Qed.

Lemma status_payload_matches_store_witness :
  let w := App.run [AddDomain "example.com"; IssueCertificate "example.com";
                    RunBackground]
             (boot ticking_clock zero_draws 1 1) in
  exists e', db (snd (get_certificate_status "example.com" w))
               !! "example.com" = Some e'
             /\ expires_at e' = Some (3 + timedelta 90).
Proof.
  intros w.
  destruct (status_payload_matches_store "example.com"
              (mkCertDomain "example.com" true "issued" (Some (3 + timedelta 90))
                 0 6 (Some 5) None) w)
    as (e' & Hlook & _ & Hexp).
  - reflexivity.
  - reflexivity.
  - exists e'. split; [exact Hlook|].
    apply (Hexp (mkCert "issued" (3 + timedelta 90) 4 None None));
      [reflexivity | discriminate].
Defined.

End AuthorityAcrossRequests.

(** ** Scheduled work refers to stored rows *)

Section KnownTasks.

Lemma check_keeps_tasks (d : string) (w : World) :
  background_tasks (snd (CertbotMockM.check_certificate d w))
  = background_tasks w.
Proof.
  unfold CertbotMockM.check_certificate. unfold_effects. cbn.
  repeat match goal with
         | |- context [match ?x with _ => _ end] => destruct x; cbn
         end; reflexivity.
Qed.

Lemma handle_tasks_shape (r : Request) (w : World) :
  let ts' := background_tasks (snd (handle r w)) in
  ts' = background_tasks w
  \/ (exists t, ts' = (background_tasks w ++ [t])%list
                 /\ is_Some (db w !! task_domain t))
  \/ ts' = tail (background_tasks w).
Proof.
  destruct r as [d| |d event|d|d|d|d|]; cbn.
  - left. unfold add_domain. unfold_effects. cbn.
    destruct (db w !! d); reflexivity.
  - left. reflexivity.
  - left. unfold transition_domain. unfold_effects. cbn.
    destruct (db w !! d) as [x|]; cbn; [|reflexivity].
    destruct (call _ (state x) event); reflexivity.
  - unfold issue_certificate. unfold_effects. cbn.
    destruct (db w !! d) as [x|] eqn:Hx; cbn; [|left; reflexivity].
    destruct (decide _); cbn; [|left; reflexivity].
    right. left. exists (perform_issuance_task d). cbn. rewrite Hx. eauto.
  - unfold renew_certificate. unfold_effects. cbn.
    destruct (db w !! d) as [x|] eqn:Hx; cbn; [|left; reflexivity].
    destruct (decide _); cbn; [|left; reflexivity].
    right. left. exists (perform_renewal_task d). cbn. rewrite Hx. eauto.
  - unfold revoke_certificate. unfold_effects. cbn.
    destruct (db w !! d) as [x|] eqn:Hx; cbn; [|left; reflexivity].
    destruct (decide _); cbn; [|left; reflexivity].
    right. left. exists (perform_revocation_task d). cbn. rewrite Hx. eauto.
  - left. unfold get_certificate_status, check_certificate_status.
    unfold_effects. cbn.
    destruct (db w !! d) as [x|] eqn:Hx; cbn; [|reflexivity].
    rewrite Hx. pose proof (check_keeps_tasks d w) as Ht.
    destruct (CertbotMockM.check_certificate d w) as [[[valid st] expiry] w1].
    cbn in *.
    destruct (String.eqb st "expired" && negb (String.eqb (state x) "expired"));
      cbn; destruct expiry; cbn; exact Ht.
  - right. right. unfold_effects.
    destruct (background_tasks w) as [|t ts] eqn:Hts; cbn; [exact Hts|].
    pose proof (run_task_keeps_tasks t
      (mkWorld (wallclock w) (ticks w) (entropy w) (draws w) (slept w)
         (certbot w) (db w) ts)) as Hrun.
    destruct (run_task t _) as [[] w1]. exact Hrun.
Qed.

Lemma handle_tasks_known (r : Request) (w : World) :
  keyed_by_domain w -> tasks_known w -> tasks_known (snd (handle r w)).
Proof.
  intros Hkey Hts. unfold tasks_known in *.
  assert (Hrows : forall d, is_Some (db w !! d) ->
                  is_Some (db (snd (handle r w)) !! d)).
  { intros d [e He].
    destruct (handle_same_row r d e w Hkey He) as (e' & He' & _). eauto. }
  assert (Hold : Forall (fun t => is_Some (db (snd (handle r w))
                                             !! task_domain t))
                   (background_tasks w)).
  { eapply Forall_impl; [exact Hts|]. intros t. apply Hrows. }
  destruct (handle_tasks_shape r w) as [-> | [(t & -> & Ht) | ->]].
  - exact Hold.
  - apply Forall_app. split; [exact Hold|].
    constructor; [apply Hrows; exact Ht | constructor].
  - destruct (background_tasks w) as [|t ts]; cbn; [constructor|].
    inversion Hold; assumption.
Qed.

(** X23. In every world reached from a fresh process, each scheduled task
    works on a domain that has a row: deferred work never runs into its
    "Domain not found" exit. *)
Theorem scheduled_tasks_have_rows (clock : nat -> datetime) (rnd : nat -> Q)
    (rate lag : Q) (rs : list Request) :
  tasks_known (App.run rs (boot clock rnd rate lag)).
Proof.
  assert (Hboot : keyed_by_domain (boot clock rnd rate lag)
                  /\ tasks_known (boot clock rnd rate lag)).
  { split; [apply map_Forall_empty | constructor]. }
  revert Hboot. generalize (boot clock rnd rate lag).
  induction rs as [|r rs IH]; intros w [Hkey Hts]; cbn; [exact Hts|].
  apply IH. split.
  - apply handle_keyed_by_domain, Hkey.
  - apply handle_tasks_known; assumption.
Qed.

End KnownTasks.
